(** * combine.py: extracting every revision of [beer.json] into a JSON Lines file

    A shallow embedding of [src/combine.py] and the proofs of its
    specification.  The script is a single sequential pass: open the
    repository, list the commits that touched one path, and for each of them
    either append one JSON line to the output file or print a diagnostic.

    The script's own control flow (the [try]/[except Exception], the
    [continue], the [with open(..., "w")], the order of the statements) is
    modelled statement by statement in a state-and-exception monad.  What it
    calls in GitPython, in [json] and in the file system is an interface:
    the results of those calls are the inputs of the model.

    The file object is modelled without its buffer: a fault of the disk is
    raised by the write that meets it, where Python may raise it at a later
    flush or when the [with] block closes the file, and may leave a cut
    record at the end of the file.  So the content of the output file is
    described for runs that complete; of a run that ends with an exception,
    the theorems state its outcome and what holds whatever part of the text
    reached the disk. *)

From Stdlib Require Import String Ascii List ZArith Lia Bool Arith.
From Stdlib Require Import Numbers.DecimalString Numbers.DecimalNat Strings.Byte.
Import ListNotations.
Open Scope string_scope.

Set Implicit Arguments.
Set Warnings "-register-all,-notation-for-abbreviation".

(* ================================================================== *)
(** * Python values, exceptions and results *)

Module Py.

(** The exception classes the script can meet.  [except Exception] catches
    every class but the ones that derive from [BaseException] only. *)
Inductive exc_class : Type :=
| KeyError | UnicodeDecodeError | JSONDecodeError | ValueError | OSError
| InvalidGitRepositoryError | NoSuchPathError | GitCommandError
| RecursionError | MemoryError
| KeyboardInterrupt | SystemExit.

(** An exception object: its class and [str(e)]. *)
Record pyexc : Type := Exc { exc_type : exc_class; exc_str : string }.

Definition isinstance_Exception (e : pyexc) : bool :=
  match exc_type e with
  | KeyboardInterrupt | SystemExit => false
  | _ => true
  end.

(** The result of a call that may raise. *)
Inductive result (A : Type) : Type :=
| Ok (a : A)
| Err (e : pyexc).
Arguments Ok {A} a.
Arguments Err {A} e.

(** The objects [json.loads] returns and [json.dumps] accepts.  A [dict] keeps
    its insertion order; Python floats are left abstract. *)
Inductive pyval (pyfloat : Type) : Type :=
| PyNone
| PyBool (b : bool)
| PyInt (z : Z)
| PyFloat (x : pyfloat)
| PyStr (s : string)
| PyList (items : list (pyval pyfloat))
| PyDict (members : list (string * pyval pyfloat)).
Arguments PyNone {pyfloat}.
Arguments PyBool {pyfloat} b.
Arguments PyInt {pyfloat} z.
Arguments PyFloat {pyfloat} x.
Arguments PyStr {pyfloat} s.
Arguments PyList {pyfloat} items.
Arguments PyDict {pyfloat} members.

(** [d[key]] on a dict in insertion order. *)
Fixpoint dict_get {V : Type} (members : list (string * V)) (key : string) : option V :=
  match members with
  | [] => None
  | (k, v) :: rest => if String.eqb k key then Some v else dict_get rest key
  end.

Definition bytes : Type := list byte.

(** [str(n)] for a non-negative [int]. *)
Definition str_of_nat (n : nat) : string := NilEmpty.string_of_uint (Nat.to_uint n).

(** The line feed ["\n"]. *)
Definition LF_char : ascii := "010"%char.
Definition LF : string := String LF_char "".

(** [repr(s)] for a [str] that holds a single quote and neither a double
    quote nor a backslash nor a control character: [s] between double quotes.
    [str(e)] of a [KeyError] is the [repr] of its argument. *)
Definition DQUOTE : ascii := "034"%char.
Definition repr_str (s : string) : string := String DQUOTE (s ++ String DQUOTE EmptyString).

End Py.
Import Py.

(** The library calls of the script that are pure functions of their
    argument: [bytes.decode("utf-8")], [json.loads] and [json.dumps].  Each
    returns or raises; [json.dumps] raises [RecursionError] on an object
    nested too deep for it, which [json.loads] may still have accepted. *)
Class PyLib : Type := {
  pyfloat : Type;
  decode_utf8 : bytes -> result string;
  json_loads : string -> result (pyval pyfloat);
  json_dumps : pyval pyfloat -> result string
}.

Notation value := (pyval pyfloat) (only parsing).

(* ================================================================== *)
(** * The repository, as GitPython shows it to the script *)

Module Git.

(** A blob of a tree: what [blob.data_stream.read()] gives. *)
Record Blob : Type := { data_stream_read : result bytes }.

(** The tree snapshot of a commit: its entries by path. *)
Definition Tree : Type := list (string * Blob).

(** [tree / name]: the entry at [name], or [KeyError] with the message
    ["Blob or Tree named %r not found" % name]. *)
Fixpoint tree_div (t : Tree) (name : string) : result Blob :=
  match t with
  | [] => Err (Exc KeyError (repr_str ("Blob or Tree named '" ++ name ++ "' not found")))
  | (n, b) :: rest => if String.eqb n name then Ok b else tree_div rest name
  end.

(** [commit.committed_datetime]: the object is used through [isoformat()] only. *)
Record datetime : Type := { isoformat : string }.

Record Commit : Type := {
  hexsha : result string;
  committed_datetime : result datetime;
  tree : Tree
}.

(** An opened repository: [iter_commits(paths=p)] is the path-filtered
    history walk, in the order the walk yields the commits. *)
Record Repo : Type := { iter_commits : string -> result (list Commit) }.

(** [Repo(path)]. *)
Record Host : Type := { open_Repo : string -> result Repo }.

End Git.
Import Git.

(* ================================================================== *)
(** * The state the script acts on, and its monad *)

(** The faults of the file system: [open(path, "w")] and, for a write, the
    path, the content written so far and the text to append. *)
Record Disk : Type := {
  open_fault : string -> option pyexc;
  write_fault : string -> string -> string -> option pyexc
}.

Record State : Type := {
  stdout : list string;               (* the lines printed, oldest first *)
  files : string -> option string;    (* the files of the working directory *)
  reads : list string                 (* the commits whose blob stream was read *)
}.

Definition M (A : Type) : Type := State -> State * result A.

Definition ret {A : Type} (a : A) : M A := fun s => (s, Ok a).

Definition bind {A B : Type} (m : M A) (f : A -> M B) : M B :=
  fun s =>
    match m s with
    | (s', Ok a) => f a s'
    | (s', Err e) => (s', Err e)
    end.

Declare Scope py_scope.
Delimit Scope py_scope with py.
Notation "x <- c1 ;; c2" := (bind c1 (fun x => c2))
  (at level 100, c1 at next level, right associativity) : py_scope.
Notation "c1 ;; c2" := (bind c1 (fun _ => c2))
  (at level 100, right associativity) : py_scope.
Open Scope py_scope.

(** A library call that returns or raises, with no effect on the state. *)
Definition call {A : Type} (r : result A) : M A := fun s => (s, r).

(** [print(msg)]. *)
Definition print (msg : string) : M unit :=
  fun s => ({| stdout := stdout s ++ [msg]; files := files s; reads := reads s |}, Ok tt).

Definition set_file (fs : string -> option string) (path content : string)
  : string -> option string :=
  fun p => if String.eqb p path then Some content else fs p.

(** [open(path, "w")]: creates the file or truncates it; the handle is the path. *)
Definition open_w (disk : Disk) (path : string) : M string :=
  fun s =>
    match open_fault disk path with
    | Some e => (s, Err e)
    | None =>
        ({| stdout := stdout s; files := set_file (files s) path ""; reads := reads s |},
         Ok path)
    end.

Definition content_of (fs : string -> option string) (path : string) : string :=
  match fs path with Some c => c | None => "" end.

(** [handle.write(text)]: appends, or raises and leaves the file as it is.
    The buffer of the file object is not modelled: see the head of the file. *)
Definition write (disk : Disk) (handle text : string) : M unit :=
  fun s =>
    let cur := content_of (files s) handle in
    match write_fault disk handle cur text with
    | Some e => (s, Err e)
    | None =>
        ({| stdout := stdout s; files := set_file (files s) handle (cur ++ text);
            reads := reads s |}, Ok tt)
    end.

(** [blob.data_stream.read()], recorded in [reads] under the commit's hash. *)
Definition read_stream (commit_hash : string) (b : Blob) : M bytes :=
  fun s =>
    ({| stdout := stdout s; files := files s; reads := reads s ++ [commit_hash] |},
     data_stream_read b).

(** [try: m  except Exception as e: ...]: the exception is handed to the
    handler when it is an instance of [Exception], and goes on otherwise. *)
Definition try_except_Exception {A : Type} (m : M A) : M (result A) :=
  fun s =>
    match m s with
    | (s', Ok a) => (s', Ok (Ok a))
    | (s', Err e) => if isinstance_Exception e then (s', Ok (Err e)) else (s', Err e)
    end.

(** [for x in xs: body]. *)
Fixpoint for_each {A : Type} (xs : list A) (body : A -> M unit) : M unit :=
  match xs with
  | [] => ret tt
  | x :: rest => body x ;; for_each rest body
  end.

(* ================================================================== *)
(** * The script *)

Definition LOCAL_DIR : string := ".".
Definition JSON_FILENAME : string := "beer.json".
Definition OUTPUT_FILE : string := "beer_versions.jsonl".

Section Combine.

Context {L : PyLib}.
Variable host : Host.
Variable disk : Disk.

(** [{"commit": commit_hash, "timestamp": timestamp, "data": data}]. *)
Definition record (commit_hash timestamp : string) (data : value) : value :=
  PyDict [("commit", PyStr commit_hash); ("timestamp", PyStr timestamp); ("data", data)].

(** The body of the [try]. *)
Definition try_block (commit : Commit) (commit_hash : string) : M value :=
  file_blob <- call (tree_div (tree commit) JSON_FILENAME) ;;
  raw <- read_stream commit_hash file_blob ;;
  file_contents <- call (decode_utf8 raw) ;;
  call (json_loads file_contents).

Definition skip_message (commit_hash : string) (e : pyexc) : string :=
  "Skipping commit " ++ commit_hash ++ " due to error: " ++ exc_str e.

(** The body of the [for]. *)
Definition loop_body (outfile : string) (commit : Commit) : M unit :=
  commit_hash <- call (hexsha commit) ;;
  dt <- call (committed_datetime commit) ;;
  let timestamp := isoformat dt in
  attempt <- try_except_Exception (try_block commit commit_hash) ;;
  match attempt with
  | Err e => print (skip_message commit_hash e)      (* continue *)
  | Ok data =>
      text <- call (json_dumps (record commit_hash timestamp data)) ;;
      write disk outfile (text ++ LF)
  end.

Definition found_message (n : nat) : string :=
  "Found " ++ str_of_nat n ++ " commits affecting " ++ JSON_FILENAME.

Definition done_message : string := "All versions extracted into " ++ OUTPUT_FILE.

(** The script, top to bottom.  Writes go to the file at once, so leaving
    the [with] block has nothing left to do, on either way out. *)
Definition main : M unit :=
  repo <- call (open_Repo host LOCAL_DIR) ;;
  commits <- call (iter_commits repo JSON_FILENAME) ;;
  print (found_message (List.length commits)) ;;
  outfile <- open_w disk OUTPUT_FILE ;;
  for_each commits (loop_body outfile) ;;
  print done_message.

(** A run of the script in a working directory with the files [prior]. *)
Definition run (prior : string -> option string) : State * result unit :=
  main {| stdout := []; files := prior; reads := [] |}.

End Combine.

(* ================================================================== *)
(** * Reading the output back *)

(** The lines of a text: each is ended by a line feed, a last one may not be. *)
Fixpoint split_lines (s : string) : list string :=
  match s with
  | EmptyString => []
  | String c rest =>
      if Ascii.eqb c LF_char then EmptyString :: split_lines rest
      else match split_lines rest with
           | [] => [String c EmptyString]
           | l :: ls => String c l :: ls
           end
  end.

Fixpoint no_LF (s : string) : bool :=
  match s with
  | EmptyString => true
  | String c rest => negb (Ascii.eqb c LF_char) && no_LF rest
  end.

(** The text of a file made of the lines [ls]. *)
Fixpoint unlines (ls : list string) : string :=
  match ls with
  | [] => EmptyString
  | l :: rest => (l ++ LF) ++ unlines rest
  end.

Definition output_file (st : State) : option string := files st OUTPUT_FILE.

Definition output_lines (st : State) : list string :=
  split_lines (content_of (files st) OUTPUT_FILE).

Section Observations.

Context {L : PyLib}.

(** The value under [key] of a line parsed on its own, when it is an object. *)
Definition field (line key : string) : option value :=
  match json_loads line with
  | Ok (PyDict members) => dict_get members key
  | _ => None
  end.

(** The keys of a line parsed on its own, when it is an object. *)
Definition keys (line : string) : option (list string) :=
  match json_loads line with
  | Ok (PyDict members) => Some (map fst members)
  | _ => None
  end.

End Observations.

(** The diagnostics among the printed lines. *)
Definition is_skip_diagnostic (msg : string) : bool := prefix "Skipping commit " msg.

Definition names_commit (commit_hash msg : string) : bool :=
  prefix ("Skipping commit " ++ commit_hash ++ " due to error: ") msg.

Definition in_range (lo hi : nat) (c : ascii) : bool :=
  Nat.leb lo (nat_of_ascii c) && Nat.leb (nat_of_ascii c) hi.

Definition is_digit (c : ascii) : bool := in_range 48 57 c.

Definition is_hex_digit (c : ascii) : bool :=
  is_digit c || in_range 97 102 c || in_range 65 70 c.

Fixpoint all_chars (p : ascii -> bool) (s : string) : bool :=
  match s with
  | EmptyString => true
  | String c rest => p c && all_chars p rest
  end.

(** A full commit hash: hexadecimal, 40 characters or more. *)
Definition is_hexsha (s : string) : bool :=
  Nat.leb 40 (String.length s) && all_chars is_hex_digit s.

(** [YYYY-MM-DDTHH:MM:SS], then an optional fraction of a second, then an
    optional offset [Z], [+HH:MM] or [-HH:MM]. *)
Fixpoint digits (n : nat) (s : string) : option string :=
  match n with
  | O => Some s
  | S n' => match s with
            | String c rest => if is_digit c then digits n' rest else None
            | EmptyString => None
            end
  end.

Definition sep (c : ascii) (s : string) : option string :=
  match s with
  | String c' rest => if Ascii.eqb c c' then Some rest else None
  | EmptyString => None
  end.

Definition and_then {A B : Type} (o : option A) (f : A -> option B) : option B :=
  match o with Some a => f a | None => None end.

Fixpoint skip_digits (s : string) : string :=
  match s with
  | String c rest => if is_digit c then skip_digits rest else s
  | EmptyString => EmptyString
  end.

Definition is_utc_offset (s : string) : bool :=
  match s with
  | EmptyString => true
  | String c rest =>
      if Ascii.eqb c "Z" then String.eqb rest EmptyString
      else if Ascii.eqb c "+" || Ascii.eqb c "-" then
        match and_then (and_then (digits 2 rest) (sep ":")) (digits 2) with
        | Some EmptyString => true
        | _ => false
        end
      else false
  end.

Definition is_iso8601 (s : string) : bool :=
  let date := and_then (and_then (and_then (and_then (digits 4 s) (sep "-"))
                (digits 2)) (sep "-")) (digits 2) in
  let time := and_then (and_then (and_then (and_then (and_then (and_then date (sep "T"))
                (digits 2)) (sep ":")) (digits 2)) (sep ":")) (digits 2) in
  match time with
  | None => false
  | Some (String "." frac) =>
      match frac with
      | String d _ => is_digit d && is_utc_offset (skip_digits frac)
      | EmptyString => false
      end
  | Some rest => is_utc_offset rest
  end.

(* ================================================================== *)
(** * A small implementation of the library interface

    [Mini] implements [PyLib] for 7-bit text and JSON without floats, in the
    output format of [json.dumps] with its default arguments.  It is what the
    script is run with on concrete repositories below. *)

Module Mini.

Definition quote : ascii := "034"%char.
Definition backslash : ascii := "092"%char.

Definition jvalue : Type := pyval Empty_set.

(** ** Decoding *)

Fixpoint decode (raw : bytes) : result string :=
  match raw with
  | [] => Ok EmptyString
  | b :: rest =>
      if Nat.leb 128 (Byte.to_nat b)
      then Err (Exc UnicodeDecodeError "'utf-8' codec can't decode byte: invalid start byte")
      else match decode rest with
           | Ok s => Ok (String (ascii_of_byte b) s)
           | Err e => Err e
           end
  end.

(** ** Writing *)

Definition hex_char (n : nat) : ascii :=
  if Nat.ltb n 10 then ascii_of_nat (48 + n) else ascii_of_nat (87 + n).

Definition escape (c : ascii) : string :=
  let n := nat_of_ascii c in
  if Ascii.eqb c quote then String backslash (String quote "")
  else if Ascii.eqb c backslash then String backslash (String backslash "")
  else if Nat.eqb n 10 then String backslash "n"
  else if Nat.eqb n 13 then String backslash "r"
  else if Nat.eqb n 9 then String backslash "t"
  else if Nat.ltb n 32 || Nat.leb 128 n
  then String backslash ("u00" ++ String (hex_char (n / 16)) (String (hex_char (n mod 16)) ""))
  else String c "".

Fixpoint escape_all (s : string) : string :=
  match s with
  | EmptyString => EmptyString
  | String c rest => escape c ++ escape_all rest
  end.

Definition dumps_str (s : string) : string :=
  String quote (escape_all s ++ String quote "").

Definition dumps_int (z : Z) : string := NilEmpty.string_of_int (Z.to_int z).

Fixpoint dumps (v : jvalue) : string :=
  match v with
  | PyNone => "null"
  | PyBool true => "true"
  | PyBool false => "false"
  | PyInt z => dumps_int z
  | PyFloat x => match x with end
  | PyStr s => dumps_str s
  | PyList items =>
      let fix go (vs : list jvalue) : string :=
        match vs with
        | [] => ""
        | [v] => dumps v
        | v :: rest => dumps v ++ ", " ++ go rest
        end in
      "[" ++ go items ++ "]"
  | PyDict members =>
      let fix go (kvs : list (string * jvalue)) : string :=
        match kvs with
        | [] => ""
        | [(k, v)] => dumps_str k ++ ": " ++ dumps v
        | (k, v) :: rest => dumps_str k ++ ": " ++ dumps v ++ ", " ++ go rest
        end in
      "{" ++ go members ++ "}"
  end.

(** ** Reading *)

Definition is_ws (c : ascii) : bool :=
  let n := nat_of_ascii c in
  Nat.eqb n 32 || Nat.eqb n 10 || Nat.eqb n 13 || Nat.eqb n 9.

Fixpoint skip_ws (s : string) : string :=
  match s with
  | String c rest => if is_ws c then skip_ws rest else s
  | EmptyString => EmptyString
  end.

Definition hex_value (c : ascii) : option nat :=
  let n := nat_of_ascii c in
  if in_range 48 57 c then Some (n - 48)
  else if in_range 97 102 c then Some (n - 87)
  else if in_range 65 70 c then Some (n - 55)
  else None.

Definition unescape (c : ascii) : option ascii :=
  if Ascii.eqb c quote then Some quote
  else if Ascii.eqb c backslash then Some backslash
  else if Ascii.eqb c "/" then Some "/"%char
  else if Ascii.eqb c "n" then Some "010"%char
  else if Ascii.eqb c "r" then Some "013"%char
  else if Ascii.eqb c "t" then Some "009"%char
  else if Ascii.eqb c "b" then Some "008"%char
  else if Ascii.eqb c "f" then Some "012"%char
  else None.

Definition cons_char (c : ascii) (r : option (string * string)) : option (string * string) :=
  match r with
  | Some (s, rest) => Some (String c s, rest)
  | None => None
  end.

(** The characters of a string literal after its opening quote. *)
Fixpoint read_chars (s : string) : option (string * string) :=
  match s with
  | EmptyString => None
  | String c rest =>
      if Ascii.eqb c quote then Some (EmptyString, rest)
      else if Ascii.eqb c backslash then
        match rest with
        | String e rest' =>
            match unescape e with
            | Some c' => cons_char c' (read_chars rest')
            | None =>
                match rest' with
                | String h1 (String h2 (String h3 (String h4 rest''))) =>
                    match Ascii.eqb e "u", hex_value h1, hex_value h2, hex_value h3, hex_value h4 with
                    | true, Some 0, Some 0, Some a, Some b =>
                        cons_char (ascii_of_nat (16 * a + b)) (read_chars rest'')
                    | _, _, _, _, _ => None
                    end
                | _ => None
                end
            end
        | EmptyString => None
        end
      else if Nat.ltb (nat_of_ascii c) 32 then None
      else cons_char c (read_chars rest)
  end.

Fixpoint read_digits (acc : Z) (s : string) : Z * string :=
  match s with
  | String c rest =>
      if is_digit c then read_digits (10 * acc + Z.of_nat (nat_of_ascii c - 48)) rest
      else (acc, s)
  | EmptyString => (acc, EmptyString)
  end.

Definition starts_float (s : string) : bool :=
  match s with
  | String c _ => Ascii.eqb c "." || Ascii.eqb c "e" || Ascii.eqb c "E"
  | EmptyString => false
  end.

(** An integer literal: no leading zero, no fraction, no exponent. *)
Definition read_unsigned (s : string) : option (Z * string) :=
  match s with
  | String c rest =>
      if negb (is_digit c) then None
      else
        let '(z, rest') := read_digits 0 s in
        if Ascii.eqb c "0" && negb (String.eqb rest rest') then None
        else if starts_float rest' then None
        else Some (z, rest')
  | EmptyString => None
  end.

Definition read_int (s : string) : option (jvalue * string) :=
  match s with
  | String c rest =>
      if Ascii.eqb c "-"
      then match read_unsigned rest with
           | Some (z, r) => Some (PyInt (- z)%Z, r)
           | None => None
           end
      else match read_unsigned s with
           | Some (z, r) => Some (PyInt z, r)
           | None => None
           end
  | EmptyString => None
  end.

Fixpoint read_literal (lit s : string) : option string :=
  match lit with
  | EmptyString => Some s
  | String c lit' =>
      match s with
      | String c' rest => if Ascii.eqb c c' then read_literal lit' rest else None
      | EmptyString => None
      end
  end.

(** [d[k] = v] on a dict in insertion order. *)
Fixpoint dict_set {V : Type} (members : list (string * V)) (k : string) (v : V)
  : list (string * V) :=
  match members with
  | [] => [(k, v)]
  | (k', v') :: rest =>
      if String.eqb k' k then (k', v) :: rest else (k', v') :: dict_set rest k v
  end.

Fixpoint read_value (fuel : nat) (s : string) : option (jvalue * string) :=
  match fuel with
  | O => None
  | S fuel' =>
      match skip_ws s with
      | EmptyString => None
      | String c rest =>
          if Ascii.eqb c "n" then option_map (pair PyNone) (read_literal "ull" rest)
          else if Ascii.eqb c "t" then option_map (pair (PyBool true)) (read_literal "rue" rest)
          else if Ascii.eqb c "f" then option_map (pair (PyBool false)) (read_literal "alse" rest)
          else if Ascii.eqb c quote then
            match read_chars rest with
            | Some (str, rest') => Some (PyStr str, rest')
            | None => None
            end
          else if Ascii.eqb c "[" then
            match skip_ws rest with
            | String "]" rest' => Some (PyList [], rest')
            | _ => match read_items fuel' rest with
                   | Some (items, rest') => Some (PyList items, rest')
                   | None => None
                   end
            end
          else if Ascii.eqb c "{" then
            match skip_ws rest with
            | String "}" rest' => Some (PyDict [], rest')
            | _ => match read_members fuel' [] rest with
                   | Some (members, rest') => Some (PyDict members, rest')
                   | None => None
                   end
            end
          else read_int (String c rest)
      end
  end
with read_items (fuel : nat) (s : string) : option (list jvalue * string) :=
  match fuel with
  | O => None
  | S fuel' =>
      match read_value fuel' s with
      | None => None
      | Some (v, rest) =>
          match skip_ws rest with
          | String c rest' =>
              if Ascii.eqb c "]" then Some ([v], rest')
              else if Ascii.eqb c "," then
                match read_items fuel' rest' with
                | Some (vs, rest'') => Some (v :: vs, rest'')
                | None => None
                end
              else None
          | EmptyString => None
          end
      end
  end
with read_members (fuel : nat) (acc : list (string * jvalue)) (s : string)
  : option (list (string * jvalue) * string) :=
  match fuel with
  | O => None
  | S fuel' =>
      match skip_ws s with
      | String c rest =>
          if negb (Ascii.eqb c quote) then None
          else
            match read_chars rest with
            | None => None
            | Some (k, rest1) =>
                match skip_ws rest1 with
                | String ":" rest2 =>
                    match read_value fuel' rest2 with
                    | None => None
                    | Some (v, rest3) =>
                        match skip_ws rest3 with
                        | String c' rest4 =>
                            if Ascii.eqb c' "}" then Some (dict_set acc k v, rest4)
                            else if Ascii.eqb c' ","
                            then read_members fuel' (dict_set acc k v) rest4
                            else None
                        | EmptyString => None
                        end
                    end
                | _ => None
                end
            end
      | EmptyString => None
      end
  end.

Definition loads (s : string) : result jvalue :=
  match read_value (2 * String.length s + 2) s with
  | Some (v, rest) =>
      match skip_ws rest with
      | EmptyString => Ok v
      | _ => Err (Exc JSONDecodeError "Extra data")
      end
  | None => Err (Exc JSONDecodeError "Expecting value")
  end.

#[export] Instance lib : PyLib := {
  pyfloat := Empty_set;
  decode_utf8 := decode;
  json_loads := loads;
  json_dumps := fun v => Ok (dumps v)
}.

(** ** Writing test data: a text with ['] for the double quote *)

Definition unquote_char (c : ascii) : ascii := if Ascii.eqb c "'" then quote else c.

Fixpoint text (s : string) : string :=
  match s with
  | EmptyString => EmptyString
  | String c rest => String (unquote_char c) (text rest)
  end.

Fixpoint utf8 (s : string) : bytes :=
  match s with
  | EmptyString => []
  | String c rest => byte_of_ascii (unquote_char c) :: utf8 rest
  end.

End Mini.

(* ================================================================== *)
(** * What the loop does with one commit, as a function of the commit *)

Section View.

Context {L : PyLib}.

(** The value of the [try] block: lookup, read, decode, parse. *)
Definition extract (commit : Commit) : result value :=
  match tree_div (tree commit) JSON_FILENAME with
  | Err e => Err e
  | Ok file_blob =>
      match data_stream_read file_blob with
      | Err e => Err e
      | Ok raw =>
          match decode_utf8 raw with
          | Err e => Err e
          | Ok file_contents => json_loads file_contents
          end
      end
  end.

(** The text [json.dumps] gives for [r], when it gives one. *)
Definition dumped (r : value) : string :=
  match json_dumps r with
  | Ok text => text
  | Err _ => EmptyString
  end.

(** One commit gives a record to write, a diagnostic to print, or an
    exception that nothing catches: one of its hash, of its timestamp, of
    [json.dumps], or one raised in the [try] that is not an [Exception]. *)
Inductive verdict : Type :=
| Emit (r : value)
| Skip (msg : string)
| Fatal (e : pyexc).

Definition verdict_of (commit : Commit) : verdict :=
  match hexsha commit with
  | Err e => Fatal e
  | Ok commit_hash =>
      match committed_datetime commit with
      | Err e => Fatal e
      | Ok dt =>
          match extract commit with
          | Ok data =>
              match json_dumps (record commit_hash (isoformat dt) data) with
              | Ok _ => Emit (record commit_hash (isoformat dt) data)
              | Err e => Fatal e
              end
          | Err e =>
              if isinstance_Exception e then Skip (skip_message commit_hash e)
              else Fatal e
          end
      end
  end.

(** The Revision Record of a commit whose file parses. *)
Definition revision_record (commit : Commit) : option value :=
  match verdict_of commit with
  | Emit r => Some r
  | _ => None
  end.

Definition parseable (commit : Commit) : bool :=
  match extract commit with
  | Ok _ => true
  | Err _ => false
  end.

(** The records of the commits that give one, in the order of the walk. *)
Fixpoint emitted (commits : list Commit) : list value :=
  match commits with
  | [] => []
  | c :: rest =>
      match verdict_of c with
      | Emit r => r :: emitted rest
      | _ => emitted rest
      end
  end.

(** The diagnostics of the commits that are skipped, in the order of the walk. *)
Fixpoint skipped (commits : list Commit) : list string :=
  match commits with
  | [] => []
  | c :: rest =>
      match verdict_of c with
      | Skip msg => msg :: skipped rest
      | _ => skipped rest
      end
  end.

(** The commit whose blob stream the loop body reads, if it reads one. *)
Definition read_log (commit : Commit) : option string :=
  match hexsha commit, committed_datetime commit, tree_div (tree commit) JSON_FILENAME with
  | Ok commit_hash, Ok _, Ok _ => Some commit_hash
  | _, _, _ => None
  end.

Definition touch (commit : Commit) (s : State) : State :=
  match read_log commit with
  | Some commit_hash =>
      {| stdout := stdout s; files := files s; reads := reads s ++ [commit_hash] |}
  | None => s
  end.


(** The library read back what it wrote for [r], on one line. *)
Definition reads_back (r : value) : Prop :=
  forall text, json_dumps r = Ok text ->
    no_LF text = true /\ json_loads text = Ok r.

(** The library wrote [r] on one line. *)
Definition one_line (r : value) : Prop :=
  forall text, json_dumps r = Ok text -> no_LF text = true.

(** The three ways the file of a commit fails to give a value. *)
Definition absent (commit : Commit) : Prop :=
  exists e, tree_div (tree commit) JSON_FILENAME = Err e.

Definition undecodable (commit : Commit) : Prop :=
  exists file_blob raw e,
    tree_div (tree commit) JSON_FILENAME = Ok file_blob /\
    data_stream_read file_blob = Ok raw /\
    decode_utf8 raw = Err e /\ exc_type e = UnicodeDecodeError.

Definition invalid_json (commit : Commit) : Prop :=
  exists file_blob raw file_contents e,
    tree_div (tree commit) JSON_FILENAME = Ok file_blob /\
    data_stream_read file_blob = Ok raw /\
    decode_utf8 raw = Ok file_contents /\
    json_loads file_contents = Err e /\ exc_type e = JSONDecodeError.


End View.

(** The walk of the history: [list(Repo(".").iter_commits(paths="beer.json"))]. *)
Definition history (host : Host) : result (list Commit) :=
  match open_Repo host LOCAL_DIR with
  | Err e => Err e
  | Ok repo => iter_commits repo JSON_FILENAME
  end.


(** The hashes and the timestamps a repository hands out. *)
Definition hex_hashes (commits : list Commit) : bool :=
  forallb (fun c => match hexsha c with Ok h => is_hexsha h | Err _ => true end) commits.

Definition iso_timestamps (commits : list Commit) : bool :=
  forallb (fun c => match committed_datetime c with
                    | Ok dt => is_iso8601 (isoformat dt)
                    | Err _ => true
                    end) commits.

(* ================================================================== *)
(** * A repository to run the script on

    [beer.json] is introduced as [{"a":1}], removed, restored with bytes
    that are not text, edited to [{"a":2}] and last corrupted to [{"a":]. *)

Module Scenario.

Import Mini.

Definition commit_of (h t : string) (entries : Tree) : Commit :=
  {| hexsha := Ok h; committed_datetime := Ok {| isoformat := t |}; tree := entries |}.

Definition blob (raw : bytes) : Blob := {| data_stream_read := Ok raw |}.

Definition readme : string * Blob := ("README.md", blob (utf8 "cheap beers")).

Definition c1 : Commit :=
  commit_of "1111111111111111111111111111111111111111" "2024-03-01T09:00:00+11:00"
    [readme; ("beer.json", blob (utf8 "{'a':1}"))].

Definition c2 : Commit :=
  commit_of "2222222222222222222222222222222222222222" "2024-03-02T09:00:00+11:00"
    [readme].

Definition c3 : Commit :=
  commit_of "3333333333333333333333333333333333333333" "2024-03-03T09:00:00+11:00"
    [readme; ("beer.json", blob [x7b; xff; x7d])].

Definition c4 : Commit :=
  commit_of "4444444444444444444444444444444444444444" "2024-03-04T09:00:00+11:00"
    [readme; ("beer.json", blob (utf8 "{'a':2}"))].

Definition c5 : Commit :=
  commit_of "5555555555555555555555555555555555555555" "2024-03-05T09:00:00+11:00"
    [readme; ("beer.json", blob (utf8 "{'a':"))].

(** Newest first. *)
Definition walk : list Commit := [c5; c4; c3; c2; c1].

Definition repo_of (commits : list Commit) : Repo :=
  {| iter_commits := fun _ => Ok commits |}.

Definition host_of (commits : list Commit) : Host :=
  {| open_Repo := fun _ => Ok (repo_of commits) |}.

Definition host : Host := host_of walk.

Definition no_repo : Host :=
  {| open_Repo := fun path => Err (Exc InvalidGitRepositoryError path) |}.

Definition good_disk : Disk :=
  {| open_fault := fun _ => None; write_fault := fun _ _ _ => None |}.

(** A disk with room for [quota] characters in a file. *)
Definition small_disk (quota : nat) : Disk :=
  {| open_fault := fun _ => None;
     write_fault := fun _ content text =>
       if Nat.leb (String.length content + String.length text) quota then None
       else Some (Exc OSError "[Errno 28] No space left on device") |}.

Definition empty_dir : string -> option string := fun _ => None.

Definition stale_dir : string -> option string :=
  set_file empty_dir OUTPUT_FILE "left over from an earlier run".

Definition line4 : string :=
  text "{'commit': '4444444444444444444444444444444444444444', 'timestamp': '2024-03-04T09:00:00+11:00', 'data': {'a': 2}}".

Definition line1 : string :=
  text "{'commit': '1111111111111111111111111111111111111111', 'timestamp': '2024-03-01T09:00:00+11:00', 'data': {'a': 1}}".

End Scenario.

(* ================================================================== *)
(** * More views of a commit, and more disks *)

(** The tree of the commit has an entry at [JSON_FILENAME]. *)
Definition has_file (commit : Commit) : bool :=
  match tree_div (tree commit) JSON_FILENAME with
  | Ok _ => true
  | Err _ => false
  end.

(** The diagnostic of a commit whose [try] block raises. *)
Definition diagnostic_of {L : PyLib} (commit : Commit) : option string :=
  match hexsha commit, extract commit with
  | Ok commit_hash, Err e => Some (skip_message commit_hash e)
  | _, _ => None
  end.

Definition unparseable {L : PyLib} (commit : Commit) : bool := negb (parseable commit).

(* ================================================================== *)
(** * The output as the specification words it

    These definitions are written from the specification and from the text
    of the messages, apart from the functions that model the script: the
    theorems compare what the script prints and writes with them. *)

(** The Revision Record (sections 3 and 6 of the specification): an object
    with the keys [commit], [timestamp] and [data], in this order. *)
Definition Revision_Record {L : PyLib} (commit_id timestamp : string) (data : value) : value :=
  PyDict [("commit", PyStr commit_id); ("timestamp", PyStr timestamp); ("data", data)].

(** [s] without the prefix [p], when it starts with it. *)
Fixpoint strip_prefix (p s : string) : option string :=
  match p with
  | EmptyString => Some s
  | String a p' =>
      match s with
      | String b s' => if Ascii.eqb a b then strip_prefix p' s' else None
      | EmptyString => None
      end
  end.

(** The number written in decimal at the head of [s], after [acc], and what
    follows it. *)
Fixpoint read_decimal (acc : nat) (s : string) : nat * string :=
  match s with
  | String c rest =>
      if is_digit c then read_decimal (10 * acc + (nat_of_ascii c - 48)) rest
      else (acc, s)
  | EmptyString => (acc, EmptyString)
  end.

(** The count of qualifying commits that a line printed at startup shows:
    the number between ["Found "] and [" commits affecting beer.json"]. *)
Definition starts_with_digit (s : string) : bool :=
  match s with
  | String c _ => is_digit c
  | EmptyString => false
  end.

Definition printed_count (line : string) : option nat :=
  match strip_prefix "Found " line with
  | Some rest =>
      if starts_with_digit rest then
        let (n, tail) := read_decimal 0 rest in
        if String.eqb tail " commits affecting beer.json" then Some n else None
      else None
  | None => None
  end.

(* ================================================================== *)
(** * A library with a bound on nesting

    [Limited.lib limit] is [Mini] with the recursion limit of the
    interpreter: reading and writing raise [RecursionError] on a value nested
    deeper than [limit].  The record wraps the parsed value in one more
    object, so a value at the limit is read and cannot be written. *)

Module Limited.

Fixpoint depth (v : Mini.jvalue) : nat :=
  match v with
  | PyList items =>
      let fix go (vs : list Mini.jvalue) : nat :=
        match vs with
        | [] => 0
        | x :: rest => Nat.max (depth x) (go rest)
        end in
      S (go items)
  | PyDict members =>
      let fix go (kvs : list (string * Mini.jvalue)) : nat :=
        match kvs with
        | [] => 0
        | (_, x) :: rest => Nat.max (depth x) (go rest)
        end in
      S (go members)
  | _ => 0
  end.

Definition loads (limit : nat) (s : string) : result Mini.jvalue :=
  match Mini.loads s with
  | Ok v =>
      if Nat.leb (depth v) limit then Ok v
      else Err (Exc RecursionError "maximum recursion depth exceeded while decoding a JSON array from a unicode string")
  | Err e => Err e
  end.

Definition dumps (limit : nat) (v : Mini.jvalue) : result string :=
  if Nat.leb (depth v) limit then Ok (Mini.dumps v)
  else Err (Exc RecursionError "maximum recursion depth exceeded while encoding a JSON object").

Definition lib (limit : nat) : PyLib := {|
  pyfloat := Empty_set;
  decode_utf8 := Mini.decode;
  json_loads := loads limit;
  json_dumps := dumps limit
|}.

(** A commit whose file holds a value nested twice. *)
Definition deep : Commit :=
  Scenario.commit_of "6666666666666666666666666666666666666666" "2024-03-06T09:00:00+11:00"
    [("beer.json", Scenario.blob (Mini.utf8 "[[1]]"))].

End Limited.

Module Faults.

(** A directory in which no file can be opened for writing. *)
Definition read_only_disk : Disk :=
  {| open_fault := fun path => Some (Exc OSError ("[Errno 13] Permission denied: '" ++ path ++ "'"));
     write_fault := fun _ _ _ => None |}.

(** A working directory that holds another file beside the stale output. *)
Definition busy_dir : string -> option string :=
  set_file Scenario.stale_dir "notes.txt" "keep me".

End Faults.

(* ================================================================== *)
(** * Texts and lines *)

Lemma append_assoc (a b c : string) : (a ++ b) ++ c = a ++ (b ++ c).
Proof. induction a as [|x a IH]; simpl; [reflexivity | now rewrite IH]. Qed.

Lemma append_empty_r (a : string) : a ++ "" = a.
Proof. induction a as [|x a IH]; simpl; [reflexivity | now rewrite IH]. Qed.

Lemma split_lines_line (l rest : string) :
  no_LF l = true -> split_lines ((l ++ LF) ++ rest) = l :: split_lines rest.
Proof.
  induction l as [|c l IH]; simpl; intros H.
  - reflexivity.
  - apply andb_true_iff in H as [Hc Hl].
    apply negb_true_iff in Hc. rewrite Hc, (IH Hl). reflexivity.
Qed.

Lemma split_lines_unlines (ls : list string) :
  Forall (fun l => no_LF l = true) ls -> split_lines (unlines ls) = ls.
Proof.
  induction 1 as [|l ls Hl _ IH]; simpl.
  - reflexivity.
  - rewrite split_lines_line by exact Hl. now rewrite IH.
Qed.

Lemma unlines_app (xs ys : list string) : unlines (xs ++ ys) = unlines xs ++ unlines ys.
Proof.
  induction xs as [|x xs IH]; simpl; [reflexivity|].
  now rewrite IH, !append_assoc.
Qed.

Lemma prefix_empty (s : string) : prefix "" s = true.
Proof. now destruct s. Qed.

Lemma prefix_cons (a b : ascii) (s1 s2 : string) :
  prefix (String a s1) (String b s2) = Ascii.eqb a b && prefix s1 s2.
Proof.
  cbn [prefix]. destruct (ascii_dec a b) as [->|N].
  - now rewrite Ascii.eqb_refl.
  - apply Ascii.eqb_neq in N. now rewrite N.
Qed.

Lemma prefix_app (a b c : string) : prefix (a ++ b) (a ++ c) = prefix b c.
Proof.
  induction a as [|x a IH]; cbn [append]; [reflexivity|].
  now rewrite prefix_cons, Ascii.eqb_refl, IH.
Qed.

Lemma strip_prefix_app (p s : string) : strip_prefix p (p ++ s) = Some s.
Proof.
  induction p as [|a p IH]; cbn [append strip_prefix]; [reflexivity|].
  now rewrite Ascii.eqb_refl.
Qed.

(** Reading a number back from its decimal writing. *)
Lemma read_decimal_string_of_uint (d : Decimal.uint) :
  forall (acc : nat) (tail : string),
    starts_with_digit tail = false ->
    read_decimal acc (NilEmpty.string_of_uint d ++ tail) = (Nat.of_uint_acc d acc, tail).
Proof.
  induction d as [|d IHd|d IHd|d IHd|d IHd|d IHd|d IHd|d IHd|d IHd|d IHd|d IHd];
    intros acc tail Ht;
    cbn [NilEmpty.string_of_uint append Nat.of_uint_acc read_decimal].
  1:{ destruct tail as [|c tail]; [reflexivity|].
      cbn [read_decimal starts_with_digit] in *. now rewrite Ht. }
  all: match goal with
       | |- context [is_digit ?c] => change (is_digit c) with true
       end;
    cbv iota; rewrite IHd by exact Ht; f_equal; f_equal;
    rewrite Nat.tail_mul_spec;
    match goal with
    | |- context [nat_of_ascii ?c - 48] =>
        let v := eval vm_compute in (nat_of_ascii c - 48) in
        change (nat_of_ascii c - 48) with v
    end; lia.
Qed.

Lemma str_of_nat_starts_with_digit (n : nat) (tail : string) :
  starts_with_digit (str_of_nat n ++ tail) = true.
Proof.
  unfold str_of_nat.
  pose proof (Unsigned.to_of (Nat.to_uint n)) as H. rewrite Unsigned.of_to in H.
  rewrite H. unfold Decimal.unorm.
  destruct (Decimal.nzhead (Nat.to_uint n)); reflexivity.
Qed.

(** The count a reader finds in the line printed at startup is the number
    the script put there. *)
Lemma printed_count_found (n : nat) : printed_count (found_message n) = Some n.
Proof.
  unfold printed_count, found_message. rewrite strip_prefix_app.
  rewrite str_of_nat_starts_with_digit. unfold str_of_nat.
  rewrite read_decimal_string_of_uint by reflexivity.
  change (Nat.of_uint_acc (Nat.to_uint n) 0) with (Nat.of_uint (Nat.to_uint n)).
  now rewrite Unsigned.of_to.
Qed.

Lemma is_hex_digit_space : is_hex_digit " " = false.
Proof. reflexivity. Qed.

(** Two hexadecimal names followed by a space: one starts the other only if
    they are the same name. *)
Lemma prefix_hex_name (h h' tail tail' : string) :
  all_chars is_hex_digit h = true -> all_chars is_hex_digit h' = true ->
  prefix (h ++ String " " tail) (h' ++ String " " tail') = true -> h = h'.
Proof.
  revert h'. induction h as [|c h IH]; intros [|c' h']; cbn [append all_chars];
    rewrite ?prefix_cons; intros Hh Hh' Hp.
  - reflexivity.
  - apply andb_true_iff in Hp as [Hc _]. apply Ascii.eqb_eq in Hc. subst c'.
    now rewrite is_hex_digit_space in Hh'.
  - apply andb_true_iff in Hp as [Hc _]. apply Ascii.eqb_eq in Hc. subst c.
    now rewrite is_hex_digit_space in Hh.
  - apply andb_true_iff in Hh as [_ Hh]. apply andb_true_iff in Hh' as [_ Hh'].
    apply andb_true_iff in Hp as [Hc Hp]. apply Ascii.eqb_eq in Hc. subst c'.
    f_equal. now apply IH.
Qed.

Lemma names_commit_skip_message (h h' : string) (e : pyexc) :
  all_chars is_hex_digit h = true -> all_chars is_hex_digit h' = true ->
  names_commit h (skip_message h' e) = true -> h = h'.
Proof.
  unfold names_commit, skip_message. intros Hh Hh' Hp.
  rewrite prefix_app in Hp. cbn [append] in Hp.
  exact (@prefix_hex_name h h' _ _ Hh Hh' Hp).
Qed.

Lemma names_commit_own_message (h : string) (e : pyexc) :
  names_commit h (skip_message h e) = true.
Proof.
  unfold names_commit, skip_message.
  rewrite prefix_app, prefix_app.
  change " due to error: " with (" due to error: " ++ "") at 1.
  rewrite prefix_app. apply prefix_empty.
Qed.

Lemma skip_message_is_diagnostic (h : string) (e : pyexc) :
  is_skip_diagnostic (skip_message h e) = true.
Proof.
  unfold is_skip_diagnostic, skip_message.
  change "Skipping commit " with ("Skipping commit " ++ "") at 1.
  rewrite prefix_app. apply prefix_empty.
Qed.

(* ================================================================== *)
(** * The loop, commit by commit *)

Section Loop.

Context {L : PyLib}.
Variable disk : Disk.

Lemma stdout_touch (c : Commit) (s : State) : stdout (touch c s) = stdout s.
Proof. unfold touch. now destruct (read_log c). Qed.

Lemma files_touch (c : Commit) (s : State) : files (touch c s) = files s.
Proof. unfold touch. now destruct (read_log c). Qed.

Lemma try_block_run (c : Commit) (h : string) (s : State) :
  try_block c h s =
  (match tree_div (tree c) JSON_FILENAME with
   | Ok _ => {| stdout := stdout s; files := files s; reads := reads s ++ [h] |}
   | Err _ => s
   end, extract c).
Proof.
  unfold try_block, extract, bind, call, read_stream.
  destruct (tree_div (tree c) JSON_FILENAME) as [b|e]; [|reflexivity].
  destruct (data_stream_read b) as [raw|e]; [|reflexivity].
  destruct (decode_utf8 raw); reflexivity.
Qed.

(** The body of the loop does what the verdict of the commit says. *)
Lemma loop_body_run (f : string) (c : Commit) (s : State) :
  loop_body disk f c s =
  match verdict_of c with
  | Emit r => write disk f (dumped r ++ LF) (touch c s)
  | Skip msg => print msg (touch c s)
  | Fatal e => (touch c s, Err e)
  end.
Proof.
  unfold loop_body, bind, call, try_except_Exception, verdict_of, touch, read_log.
  destruct (hexsha c) as [h|e]; [|reflexivity].
  destruct (committed_datetime c) as [dt|e]; [|reflexivity].
  rewrite try_block_run. unfold dumped.
  destruct (tree_div (tree c) JSON_FILENAME) as [b|e] eqn:Et;
    destruct (extract c) as [d|e']; try reflexivity;
    try (destruct (isinstance_Exception _); reflexivity);
    destruct (json_dumps (record h (isoformat dt) d)) as [text|e0] eqn:Ed;
    try reflexivity; now rewrite Ed.
Qed.

Lemma set_file_same (fs : string -> option string) (p c : string) :
  set_file fs p c p = Some c.
Proof. unfold set_file. now rewrite String.eqb_refl. Qed.

(** The loop stops at the first commit it cannot finish; the commits before
    it have each given a line or a diagnostic, in order. *)
Lemma for_each_run (f : string) (commits : list Commit) :
  forall (s s' : State) (out : result unit) (content : string),
    for_each commits (loop_body disk f) s = (s', out) ->
    files s f = Some content ->
    exists pre post,
      commits = (pre ++ post)%list /\
      stdout s' = (stdout s ++ skipped pre)%list /\
      files s' f = Some (content ++ unlines (map dumped (emitted pre))) /\
      Forall (fun c => forall e, verdict_of c <> Fatal e) pre /\
      (out = Ok tt -> post = []).
Proof.
  induction commits as [|c rest IH]; intros s s' out content Hrun Hf.
  - inversion Hrun; subst. exists [], []. simpl.
    rewrite app_nil_r, append_empty_r. repeat split; auto.
  - cbn [for_each] in Hrun. unfold bind in Hrun. rewrite loop_body_run in Hrun.
    destruct (verdict_of c) as [r|msg|e] eqn:Ev.
    + unfold write in Hrun. rewrite files_touch in Hrun.
      unfold content_of in Hrun at 1. rewrite Hf in Hrun.
      destruct (write_fault disk f content (dumped r ++ LF)) as [e|].
      * inversion Hrun; subst. exists [], (c :: rest). simpl.
        rewrite stdout_touch, files_touch, app_nil_r, append_empty_r.
        repeat split; auto. discriminate.
      * unfold content_of in Hrun. rewrite Hf in Hrun.
        eapply IH in Hrun; [|apply set_file_same].
        destruct Hrun as (pre & post & -> & Hout & Hfile & Hpre & Hdone).
        exists (c :: pre), post. cbn [emitted skipped map unlines app stdout] in *.
        rewrite Ev. cbn [map unlines]. rewrite stdout_touch in Hout.
        rewrite Hout, Hfile, !append_assoc.
        repeat split; auto. constructor; auto. intros e. rewrite Ev. discriminate.
    + unfold print in Hrun. eapply IH in Hrun; [|cbn [files]; rewrite files_touch; exact Hf].
      destruct Hrun as (pre & post & -> & Hout & Hfile & Hpre & Hdone).
      exists (c :: pre), post. cbn [emitted skipped map unlines app stdout] in *.
      rewrite Ev. rewrite stdout_touch in Hout.
      rewrite Hout, Hfile, <- app_assoc.
      repeat split; auto. constructor; auto. intros e. rewrite Ev. discriminate.
    + inversion Hrun; subst. exists [], (c :: rest). simpl.
      rewrite stdout_touch, files_touch, app_nil_r, append_empty_r.
      repeat split; auto. discriminate.
Qed.



End Loop.

(* ================================================================== *)
(** * Verdicts, records and lines *)

Section Verdicts.

Context {L : PyLib}.

Lemma verdict_emit_inv (c : Commit) (r : value) :
  verdict_of c = Emit r ->
  exists h dt d,
    hexsha c = Ok h /\ committed_datetime c = Ok dt /\ extract c = Ok d /\
    r = record h (isoformat dt) d.
Proof.
  unfold verdict_of.
  destruct (hexsha c) as [h|]; [|discriminate].
  destruct (committed_datetime c) as [dt|]; [|discriminate].
  destruct (extract c) as [d|e].
  - destruct (json_dumps (record h (isoformat dt) d)); [|discriminate].
    intros [= <-]. now exists h, dt, d.
  - destruct (isinstance_Exception e); discriminate.
Qed.

(** A record that the loop writes is one that [json.dumps] gave a text for. *)
Lemma verdict_emit_dumped (c : Commit) (r : value) :
  verdict_of c = Emit r -> json_dumps r = Ok (dumped r).
Proof.
  unfold verdict_of, dumped.
  destruct (hexsha c) as [h|]; [|discriminate].
  destruct (committed_datetime c) as [dt|]; [|discriminate].
  destruct (extract c) as [d|e].
  - destruct (json_dumps (record h (isoformat dt) d)) eqn:Ed; [|discriminate].
    intros [= <-]. now rewrite Ed.
  - destruct (isinstance_Exception e); discriminate.
Qed.

(** A commit that is not fatal and whose file parses gives its record. *)
Lemma verdict_parsed (c : Commit) (h : string) (dt : datetime) (d : value) :
  (forall e, verdict_of c <> Fatal e) ->
  hexsha c = Ok h -> committed_datetime c = Ok dt -> extract c = Ok d ->
  verdict_of c = Emit (record h (isoformat dt) d).
Proof.
  unfold verdict_of. intros H Hh Hdt Hd. rewrite Hh, Hdt, Hd in *.
  destruct (json_dumps (record h (isoformat dt) d)) as [text|e]; [reflexivity|].
  now destruct (H e).
Qed.

Lemma verdict_skip_inv (c : Commit) (msg : string) :
  verdict_of c = Skip msg ->
  exists h e,
    hexsha c = Ok h /\ extract c = Err e /\ isinstance_Exception e = true /\
    msg = skip_message h e.
Proof.
  unfold verdict_of.
  destruct (hexsha c) as [h|]; [|discriminate].
  destruct (committed_datetime c) as [dt|]; [|discriminate].
  destruct (extract c) as [d|e]; [destruct (json_dumps _); discriminate|].
  destruct (isinstance_Exception e) eqn:E; [|discriminate].
  intros [= <-]. now exists h, e.
Qed.

Lemma verdict_not_fatal_inv (c : Commit) :
  (forall e, verdict_of c <> Fatal e) ->
  exists h dt, hexsha c = Ok h /\ committed_datetime c = Ok dt /\
    forall e, extract c = Err e -> isinstance_Exception e = true.
Proof.
  unfold verdict_of. intros H.
  destruct (hexsha c) as [h|e]; [|now destruct (H e)].
  destruct (committed_datetime c) as [dt|e]; [|now destruct (H e)].
  exists h, dt. repeat split. intros e He. rewrite He in H.
  destruct (isinstance_Exception e); [reflexivity | now destruct (H e)].
Qed.

Lemma emitted_app (xs ys : list Commit) :
  emitted (xs ++ ys) = (emitted xs ++ emitted ys)%list.
Proof.
  induction xs as [|c xs IH]; simpl; [reflexivity|].
  destruct (verdict_of c); simpl; now rewrite IH.
Qed.

Lemma skipped_app (xs ys : list Commit) :
  skipped (xs ++ ys) = (skipped xs ++ skipped ys)%list.
Proof.
  induction xs as [|c xs IH]; simpl; [reflexivity|].
  destruct (verdict_of c); simpl; now rewrite IH.
Qed.

Lemma emitted_In (commits : list Commit) (r : value) :
  In r (emitted commits) <-> exists c, In c commits /\ verdict_of c = Emit r.
Proof.
  induction commits as [|c rest IH]; simpl.
  - split; [tauto | now intros (c & [] & _)].
  - split.
    + destruct (verdict_of c) as [r'| |] eqn:Ev.
      * intros [<- | H]; [exists c; auto|].
        apply IH in H as (c' & Hin & Hv). exists c'; auto.
      * intros H. apply IH in H as (c' & Hin & Hv). exists c'; auto.
      * intros H. apply IH in H as (c' & Hin & Hv). exists c'; auto.
    + intros (c' & [<- | Hin] & Hv).
      * rewrite Hv. now left.
      * assert (In r (emitted rest)) by (apply IH; exists c'; auto).
        destruct (verdict_of c); simpl; auto.
Qed.

(** Each commit that is not fatal gives a line or a diagnostic, not both. *)
Lemma emitted_plus_skipped (commits : list Commit) :
  Forall (fun c => forall e, verdict_of c <> Fatal e) commits ->
  List.length (emitted commits) + List.length (skipped commits) = List.length commits.
Proof.
  induction 1 as [|c rest Hc _ IH]; simpl; [reflexivity|].
  destruct (verdict_of c) as [r|msg|e]; simpl; try lia.
  now destruct (Hc e).
Qed.

Lemma filter_diagnostics_skipped (commits : list Commit) :
  filter is_skip_diagnostic (skipped commits) = skipped commits.
Proof.
  induction commits as [|c rest IH]; simpl; [reflexivity|].
  destruct (verdict_of c) as [r|msg|e] eqn:Ev; simpl; auto.
  apply verdict_skip_inv in Ev as (h & e & _ & _ & _ & ->).
  now rewrite skip_message_is_diagnostic, IH.
Qed.

(** In a run without fatal commits, the parseable commits are the ones that
    give a record. *)
Lemma emitted_parseable (commits : list Commit) :
  Forall (fun c => forall e, verdict_of c <> Fatal e) commits ->
  map Some (emitted commits) = map revision_record (filter parseable commits).
Proof.
  induction 1 as [|c rest Hc _ IH]; [reflexivity|].
  cbn [emitted filter].
  destruct (verdict_of c) as [r|msg|e] eqn:Ev.
  - apply verdict_emit_inv in Ev as Hv. destruct Hv as (h & dt & d & _ & _ & Hd & _).
    unfold parseable at 1. rewrite Hd. cbn [map].
    unfold revision_record at 1. now rewrite Ev, IH.
  - apply verdict_skip_inv in Ev as (h & e & _ & He & _).
    unfold parseable at 1. now rewrite He.
  - now destruct (Hc e).
Qed.

(** What a line that reads back shows: its three keys and their values. *)
Lemma emitted_dumped (commits : list Commit) (r : value) :
  In r (emitted commits) -> json_dumps r = Ok (dumped r).
Proof.
  intros H. apply emitted_In in H as (c & _ & Ev). exact (verdict_emit_dumped _ Ev).
Qed.

(** What a line that reads back shows: its three keys and their values. *)
Lemma keys_line (h t : string) (d : value) :
  json_dumps (record h t d) = Ok (dumped (record h t d)) ->
  reads_back (record h t d) ->
  json_loads (dumped (record h t d)) = Ok (record h t d) /\
  keys (dumped (record h t d)) = Some ["commit"; "timestamp"; "data"] /\
  field (dumped (record h t d)) "commit" = Some (PyStr h) /\
  field (dumped (record h t d)) "timestamp" = Some (PyStr t) /\
  field (dumped (record h t d)) "data" = Some d.
Proof.
  intros Hd Hr. destruct (Hr _ Hd) as [_ Hback].
  unfold keys, field. rewrite Hback. unfold record.
  repeat split; reflexivity.
Qed.

Lemma tree_div_error (t : Tree) (name : string) (e : pyexc) :
  tree_div t name = Err e -> exc_type e = KeyError.
Proof.
  induction t as [|[n b] rest IH]; simpl.
  - now intros [= <-].
  - destruct (String.eqb n name); [discriminate | exact IH].
Qed.

(** A file that is absent, undecodable or invalid makes the [try] block raise
    an [Exception]. *)
Lemma unparseable_extract (c : Commit) :
  absent c \/ undecodable c \/ invalid_json c ->
  exists e, extract c = Err e /\ isinstance_Exception e = true.
Proof.
  unfold absent, undecodable, invalid_json, extract, isinstance_Exception.
  intros [(e & He) | [(b & raw & e & Hb & Hraw & He & Hty)
                     | (b & raw & txt & e & Hb & Hraw & Htxt & He & Hty)]].
  - exists e. rewrite He. split; [reflexivity|].
    now rewrite (tree_div_error _ _ He).
  - exists e. rewrite Hb, Hraw, He, Hty. now split.
  - exists e. rewrite Hb, Hraw, Htxt, He, Hty. now split.
Qed.

End Verdicts.

Lemma NoDup_map_split {A B : Type} (f : A -> B) (xs ys : list A) (x y : A) :
  NoDup (map f (xs ++ x :: ys)) -> In y (xs ++ ys) -> f y <> f x.
Proof.
  rewrite map_app. cbn [map]. intros Hnd Hin Heq.
  apply NoDup_remove_2 in Hnd. apply Hnd.
  rewrite <- map_app, <- Heq. now apply in_map.
Qed.

Lemma hex_hashes_In (commits : list Commit) (c : Commit) (h : string) :
  hex_hashes commits = true -> In c commits -> hexsha c = Ok h ->
  is_hexsha h = true.
Proof.
  unfold hex_hashes. rewrite forallb_forall. intros H Hin Hh.
  specialize (H c Hin). now rewrite Hh in H.
Qed.

Lemma iso_timestamps_In (commits : list Commit) (c : Commit) (dt : datetime) :
  iso_timestamps commits = true -> In c commits -> committed_datetime c = Ok dt ->
  is_iso8601 (isoformat dt) = true.
Proof.
  unfold iso_timestamps. rewrite forallb_forall. intros H Hin Hh.
  specialize (H c Hin). now rewrite Hh in H.
Qed.

Lemma is_hexsha_chars (h : string) : is_hexsha h = true -> all_chars is_hex_digit h = true.
Proof. unfold is_hexsha. intros H. now apply andb_true_iff in H. Qed.

(* ================================================================== *)
(** * A whole run *)

Section Run.

Context {L : PyLib}.
Variable host : Host.
Variable disk : Disk.

(** The statements before and after the loop. *)
Lemma run_unfold (prior : string -> option string) :
  run host disk prior =
  match history host with
  | Err e => ({| stdout := []; files := prior; reads := [] |}, Err e)
  | Ok commits =>
      let found := found_message (List.length commits) in
      match open_fault disk OUTPUT_FILE with
      | Some e => ({| stdout := [found]; files := prior; reads := [] |}, Err e)
      | None =>
          match for_each commits (loop_body disk OUTPUT_FILE)
                  {| stdout := [found]; files := set_file prior OUTPUT_FILE ""; reads := [] |}
          with
          | (s', Ok _) => print done_message s'
          | (s', Err e) => (s', Err e)
          end
      end
  end.
Proof.
  unfold run, main, history, bind, call.
  destruct (open_Repo host LOCAL_DIR) as [repo|e]; [|reflexivity].
  destruct (iter_commits repo JSON_FILENAME) as [commits|e]; [|reflexivity].
  unfold print at 1, open_w. cbn [stdout files reads app].
  destruct (open_fault disk OUTPUT_FILE); reflexivity.
Qed.

(** A run that opened the output file leaves in it the lines of the commits
    it went through. *)
Lemma run_opened (prior : string -> option string) (commits : list Commit)
      (st : State) (out : result unit) :
  history host = Ok commits ->
  open_fault disk OUTPUT_FILE = None ->
  run host disk prior = (st, out) ->
  exists pre post,
    commits = (pre ++ post)%list /\
    stdout st = (found_message (List.length commits) :: skipped pre
                 ++ match out with Ok _ => [done_message] | Err _ => [] end)%list /\
    output_file st = Some (unlines (map dumped (emitted pre))) /\
    Forall (fun c => forall e, verdict_of c <> Fatal e) pre /\
    (out = Ok tt -> post = []).
Proof.
  intros Hh Ho Hrun. rewrite run_unfold, Hh, Ho in Hrun. cbv zeta in Hrun.
  destruct (for_each commits _ _) as [s' [[]|e]] eqn:Hloop.
  - apply for_each_run with (content := "") in Hloop; [|apply set_file_same].
    destruct Hloop as (pre & post & Hc & Hout & Hfile & Hpre & Hdone).
    unfold print in Hrun. inversion Hrun; subst st out. clear Hrun.
    exists pre, post. unfold output_file. cbn [stdout files] in *.
    rewrite Hout, Hfile. cbn [app append]. repeat split; auto.
  - apply for_each_run with (content := "") in Hloop; [|apply set_file_same].
    destruct Hloop as (pre & post & Hc & Hout & Hfile & Hpre & Hdone).
    inversion Hrun; subst st out. clear Hrun.
    exists pre, post. unfold output_file. cbn [stdout files] in *.
    rewrite Hout, Hfile, app_nil_r. cbn [app append]. repeat split; auto.
Qed.

(** A run that completes went through every commit of the walk. *)
Lemma run_completed (prior : string -> option string) (commits : list Commit) (st : State) :
  run host disk prior = (st, Ok tt) ->
  history host = Ok commits ->
  stdout st = (found_message (List.length commits) :: skipped commits ++ [done_message])%list /\
  output_file st = Some (unlines (map dumped (emitted commits))) /\
  Forall (fun c => forall e, verdict_of c <> Fatal e) commits.
Proof.
  intros Hrun Hh.
  assert (Ho : open_fault disk OUTPUT_FILE = None).
  { rewrite run_unfold, Hh in Hrun. cbv zeta in Hrun.
    destruct (open_fault disk OUTPUT_FILE); [discriminate | reflexivity]. }
  destruct (run_opened prior Hh Ho Hrun) as (pre & post & Hc & Hout & Hfile & Hpre & Hdone).
  rewrite (Hdone eq_refl), app_nil_r in Hc. subst pre. auto.
Qed.

Lemma output_lines_of (st : State) (ls : list string) :
  output_file st = Some (unlines ls) ->
  Forall (fun l => no_LF l = true) ls ->
  output_lines st = ls.
Proof.
  unfold output_file, output_lines, content_of. intros -> H.
  now apply split_lines_unlines.
Qed.

End Run.

Lemma Forall_reads_back_no_LF {L : PyLib} (commits : list Commit) :
  Forall reads_back (emitted commits) ->
  Forall (fun l => no_LF l = true) (map dumped (emitted commits)).
Proof.
  intros H. rewrite Forall_forall in *. intros l Hl.
  apply in_map_iff in Hl as (r & <- & Hr).
  exact (proj1 (H r Hr _ (emitted_dumped _ _ Hr))).
Qed.

Lemma Forall_no_LF_map {L : PyLib} (commits : list Commit) :
  Forall one_line (emitted commits) ->
  Forall (fun l => no_LF l = true) (map dumped (emitted commits)).
Proof.
  intros H. rewrite Forall_forall in *. intros l Hl.
  apply in_map_iff in Hl as (r & <- & Hr).
  exact (H r Hr _ (emitted_dumped _ _ Hr)).
Qed.

(* ================================================================== *)
(** * The script on the repository of [Scenario] *)

(** The two revisions that parse are written newest first; the three others
    are reported, in the order of the walk. *)
Example scenario_output :
  let st := fst (run (L := Mini.lib) Scenario.host Scenario.good_disk Scenario.stale_dir) in
  snd (run (L := Mini.lib) Scenario.host Scenario.good_disk Scenario.stale_dir) = Ok tt /\
  output_file st = Some (unlines [Scenario.line4; Scenario.line1]) /\
  stdout st =
    ["Found 5 commits affecting beer.json";
     "Skipping commit 5555555555555555555555555555555555555555 due to error: Expecting value";
     "Skipping commit 3333333333333333333333333333333333333333 due to error: 'utf-8' codec can't decode byte: invalid start byte";
     "Skipping commit 2222222222222222222222222222222222222222 due to error: "
       ++ repr_str "Blob or Tree named 'beer.json' not found";
     "All versions extracted into beer_versions.jsonl"] /\
  reads st =
    ["5555555555555555555555555555555555555555";
     "4444444444444444444444444444444444444444";
     "3333333333333333333333333333333333333333";
     "1111111111111111111111111111111111111111"].
Proof. vm_compute. repeat split. Qed.

(** On a disk with room for one line, the run ends with the exception of
    the disk. *)
Example scenario_disk_full :
  snd (run (L := Mini.lib) Scenario.host (Scenario.small_disk 150) Scenario.stale_dir)
  = Err (Exc OSError "[Errno 28] No space left on device").
Proof. vm_compute. reflexivity. Qed.

(** With nesting bounded by 2, the file [[[1]]] of [Limited.deep] is read,
    and its record, nested three deep, cannot be written: [json.dumps] is
    called outside the [try], so its exception ends the run. *)
Example scenario_deep_value :
  extract (L := Limited.lib 2) Limited.deep = Ok (PyList [PyList [PyInt 1]]) /\
  snd (run (L := Limited.lib 2)
         (Scenario.host_of [Scenario.c4; Limited.deep; Scenario.c1])
         Scenario.good_disk Scenario.stale_dir)
  = Err (Exc RecursionError "maximum recursion depth exceeded while encoding a JSON object").
Proof. vm_compute. split; reflexivity. Qed.

(* ================================================================== *)
(** * The specification *)

(** The hypothesis on the library, on a list of concrete records: each text
    [json.dumps] gives is computed, and read again. *)
Ltac evaluate_reads_back :=
  repeat (apply Forall_cons;
          [ let text := fresh "text" in
            let H := fresh "H" in
            intros text H; vm_compute in H; injection H as <-; split; reflexivity
          | ]);
  apply Forall_nil.

Ltac evaluate_one_line :=
  repeat (apply Forall_cons;
          [ let text := fresh "text" in
            let H := fresh "H" in
            intros text H; vm_compute in H; injection H as <-; reflexivity
          | ]);
  apply Forall_nil.

(** C1. In a run that completes, a commit of the walk whose blob exists,
    decodes as UTF-8 and parses as JSON has exactly one line in the output
    file: the line's [commit] is the commit's hash, its [data] is the value
    parsed from the blob, and no other line has that [commit].  The walk
    yields each hash once, and the library reads back what it wrote. *)
Theorem parsed_commit_has_exactly_one_line {L : PyLib} (host : Host) (disk : Disk)
    (prior : string -> option string) (st : State) (commits : list Commit)
    (c : Commit) (h : string) (file_blob : Blob) (raw : bytes)
    (file_contents : string) (d : value) :
  run host disk prior = (st, Ok tt) ->
  history host = Ok commits ->
  NoDup (map hexsha commits) ->
  Forall reads_back (emitted commits) ->
  In c commits ->
  hexsha c = Ok h ->
  tree_div (tree c) JSON_FILENAME = Ok file_blob ->
  data_stream_read file_blob = Ok raw ->
  decode_utf8 raw = Ok file_contents ->
  json_loads file_contents = Ok d ->
  exists before line after,
    output_lines st = (before ++ line :: after)%list /\
    field line "commit" = Some (PyStr h) /\
    field line "data" = Some d /\
    forall l, In l (before ++ after)%list -> field l "commit" <> Some (PyStr h).
Proof.
  intros Hrun Hh Hnd Hback Hin Hhash Hblob Hraw Htxt Hd.
  destruct (run_completed _ _ _ Hrun Hh) as (_ & Hfile & Hok).
  apply output_lines_of in Hfile; [|now apply Forall_reads_back_no_LF].
  assert (Hex : extract c = Ok d) by (unfold extract; now rewrite Hblob, Hraw, Htxt).
  rewrite Forall_forall in Hok, Hback.
  destruct (verdict_not_fatal_inv _ (Hok c Hin)) as (h0 & dt & Hh0 & Hdt & _).
  rewrite Hhash in Hh0. injection Hh0 as <-.
  pose proof (verdict_parsed _ (Hok c Hin) Hhash Hdt Hex) as Ev.
  pose proof (verdict_emit_dumped _ Ev) as Hdump.
  apply in_split in Hin as (xs & ys & ->).
  rewrite emitted_app in Hfile, Hback. cbn [emitted] in Hfile, Hback.
  rewrite Ev in Hback. rewrite Ev, map_app in Hfile. cbn [map] in Hfile.
  assert (Hr : reads_back (record h (isoformat dt) d)).
  { apply Hback. apply in_or_app. right. now left. }
  destruct (keys_line Hdump Hr) as (_ & _ & Hc & _ & Hdata).
  exists (map dumped (emitted xs)), (dumped (record h (isoformat dt) d)),
    (map dumped (emitted ys)).
  repeat split; auto.
  intros l Hl. rewrite <- map_app, <- emitted_app in Hl.
  apply in_map_iff in Hl as (r' & <- & Hr').
  apply emitted_In in Hr' as Hc'. destruct Hc' as (c' & Hin' & Ev').
  pose proof (verdict_emit_dumped _ Ev') as Hdump'.
  apply verdict_emit_inv in Ev' as (h' & dt' & d' & Hh' & _ & _ & ->).
  assert (Hr'' : reads_back (record h' (isoformat dt') d')).
  { apply Hback. rewrite emitted_app in Hr'. apply in_app_or in Hr' as [H|H];
      apply in_or_app; [now left | right; now right]. }
  destruct (keys_line Hdump' Hr'') as (_ & _ & Hc'' & _). rewrite Hc''.
  intros [= ->]. apply (@NoDup_map_split _ _ hexsha xs ys c c' Hnd Hin'). congruence.
Qed.

Lemma parsed_commit_has_exactly_one_line_witness :
  exists before line after,
    output_lines (fst (run (L := Mini.lib) Scenario.host Scenario.good_disk Scenario.stale_dir))
    = (before ++ line :: after)%list /\
    field (L := Mini.lib) line "commit"
    = Some (PyStr "4444444444444444444444444444444444444444") /\
    field (L := Mini.lib) line "data" = Some (PyDict [("a", PyInt 2)]) /\
    forall l, In l (before ++ after)%list ->
      field (L := Mini.lib) l "commit"
      <> Some (PyStr "4444444444444444444444444444444444444444").
Proof.
  apply (@parsed_commit_has_exactly_one_line Mini.lib Scenario.host Scenario.good_disk
           Scenario.stale_dir _ Scenario.walk Scenario.c4
           "4444444444444444444444444444444444444444"
           (Scenario.blob (Mini.utf8 "{'a':2}")) (Mini.utf8 "{'a':2}")
           (Mini.text "{'a':2}") (PyDict [("a", PyInt 2)])).
  - vm_compute. reflexivity.
  - reflexivity.
  - repeat constructor; simpl; intuition discriminate.
  - evaluate_reads_back.
  - simpl. tauto.
  - reflexivity.
  - reflexivity.
  - reflexivity.
  - reflexivity.
  - reflexivity.
Defined.

Lemma names_commit_found (h : string) (n : nat) :
  names_commit h (found_message n) = false.
Proof. unfold names_commit, found_message. cbn [append]. now rewrite prefix_cons. Qed.

Lemma names_commit_done (h : string) : names_commit h done_message = false.
Proof. unfold names_commit, done_message. cbn [append]. now rewrite prefix_cons. Qed.

Lemma filter_names_commit_others {L : PyLib} (h : string) (cs : list Commit) :
  all_chars is_hex_digit h = true ->
  (forall c' h', In c' cs -> hexsha c' = Ok h' ->
                 h' <> h /\ all_chars is_hex_digit h' = true) ->
  filter (names_commit h) (skipped cs) = [].
Proof.
  intros Hh. induction cs as [|c' cs IH]; intros Hcs; [reflexivity|].
  cbn [skipped].
  assert (Hrest : filter (names_commit h) (skipped cs) = []).
  { apply IH. intros c0 h0 Hin. apply Hcs. now right. }
  destruct (verdict_of c') as [r|msg|e] eqn:Ev; auto.
  apply verdict_skip_inv in Ev as (h' & e & Hh' & _ & _ & ->).
  destruct (Hcs c' h' (or_introl eq_refl) Hh') as [Hne Hhex].
  cbn [filter]. destruct (names_commit h (skip_message h' e)) eqn:En; auto.
  apply names_commit_skip_message in En; auto. now destruct Hne.
Qed.

(** C2. In a run that completes, a commit of the walk whose file is absent,
    undecodable as UTF-8 or invalid JSON has no line in the output file, and
    exactly one printed diagnostic names it: the message made of its hash and
    of the error.  The loop then goes on with the next commit, from the state
    in which that message is printed and the files are untouched.  The walk
    yields each hash once, hashes are hexadecimal, and the library reads back
    what it wrote. *)
Theorem unparseable_commit_is_skipped {L : PyLib} (host : Host) (disk : Disk)
    (prior : string -> option string) (st : State) (commits : list Commit)
    (c : Commit) (h : string) :
  run host disk prior = (st, Ok tt) ->
  history host = Ok commits ->
  NoDup (map hexsha commits) ->
  hex_hashes commits = true ->
  Forall reads_back (emitted commits) ->
  In c commits ->
  hexsha c = Ok h ->
  absent c \/ undecodable c \/ invalid_json c ->
  exists e,
    extract c = Err e /\
    (forall l, In l (output_lines st) -> field l "commit" <> Some (PyStr h)) /\
    filter (names_commit h) (stdout st) = [skip_message h e] /\
    (forall (outfile : string) (rest : list Commit) (s : State),
        exists s',
          for_each (c :: rest) (loop_body disk outfile) s
          = for_each rest (loop_body disk outfile) s' /\
          stdout s' = (stdout s ++ [skip_message h e])%list /\
          files s' = files s).
Proof.
  intros Hrun Hh Hnd Hhex Hback Hin Hhash Hbad.
  destruct (run_completed _ _ _ Hrun Hh) as (Hout & Hfile & Hok).
  apply output_lines_of in Hfile; [|now apply Forall_reads_back_no_LF].
  destruct (unparseable_extract Hbad) as (e & Hex & Hexc).
  rewrite Forall_forall in Hok, Hback.
  destruct (verdict_not_fatal_inv _ (Hok c Hin)) as (h0 & dt & Hh0 & Hdt & _).
  rewrite Hhash in Hh0. injection Hh0 as <-.
  assert (Ev : verdict_of c = Skip (skip_message h e)).
  { unfold verdict_of. now rewrite Hhash, Hdt, Hex, Hexc. }
  assert (Hhexh : all_chars is_hex_digit h = true).
  { apply is_hexsha_chars. exact (hex_hashes_In _ _ Hhex Hin Hhash). }
  exists e. split; [exact Hex|]. split; [|split].
  - intros l Hl. rewrite Hfile in Hl.
    apply in_map_iff in Hl as (r' & <- & Hr').
    apply emitted_In in Hr' as Hc'. destruct Hc' as (c' & Hin' & Ev').
    specialize (Hback _ Hr'). pose proof (verdict_emit_dumped _ Ev') as Hdump'.
    apply verdict_emit_inv in Ev' as Hv. destruct Hv as (h' & dt' & d' & Hh' & _ & _ & ->).
    destruct (keys_line Hdump' Hback) as (_ & _ & Hc'' & _). rewrite Hc''.
    intros [= ->].
    assert (c' = c).
    { apply in_split in Hin as (xs & ys & ->).
      apply in_app_or in Hin' as [Hx | [Hx | Hx]]; auto;
        exfalso; apply (@NoDup_map_split _ _ hexsha xs ys c c' Hnd);
        try congruence; apply in_or_app; auto. }
    subst c'. congruence.
  - rewrite Hout. cbn [filter]. rewrite names_commit_found, filter_app.
    cbn [filter]. rewrite names_commit_done, app_nil_r.
    pose proof Hin as Hin0.
    apply in_split in Hin as (xs & ys & ->).
    rewrite skipped_app. cbn [skipped]. rewrite Ev, filter_app. cbn [filter].
    rewrite names_commit_own_message.
    assert (Hothers : forall c' h', In c' (xs ++ ys) -> hexsha c' = Ok h' ->
                        h' <> h /\ all_chars is_hex_digit h' = true).
    { intros c' h' Hin' Hh'. split.
      - intros ->. apply (@NoDup_map_split _ _ hexsha xs ys c c' Hnd Hin'). congruence.
      - apply is_hexsha_chars. apply (hex_hashes_In _ c' Hhex); auto.
        apply in_app_or in Hin' as [|]; apply in_or_app; [now left | right; now right]. }
    rewrite !filter_names_commit_others; auto.
    + intros c' h' Hin'. apply Hothers. apply in_or_app. now right.
    + intros c' h' Hin'. apply Hothers. apply in_or_app. now left.
  - intros outfile rest s.
    exists {| stdout := stdout (touch c s) ++ [skip_message h e];
              files := files (touch c s); reads := reads (touch c s) |}.
    cbn [for_each stdout files]. unfold bind at 1.
    rewrite loop_body_run, Ev, stdout_touch, files_touch. unfold print.
    now rewrite stdout_touch, files_touch.
Qed.

Lemma unparseable_commit_is_skipped_witness :
  exists e,
    extract (L := Mini.lib) Scenario.c2 = Err e /\
    (forall l,
        In l (output_lines
                (fst (run (L := Mini.lib) Scenario.host Scenario.good_disk Scenario.stale_dir))) ->
        field (L := Mini.lib) l "commit"
        <> Some (PyStr "2222222222222222222222222222222222222222")) /\
    filter (names_commit "2222222222222222222222222222222222222222")
      (stdout (fst (run (L := Mini.lib) Scenario.host Scenario.good_disk Scenario.stale_dir)))
    = [skip_message "2222222222222222222222222222222222222222" e] /\
    (forall (outfile : string) (rest : list Commit) (s : State),
        exists s',
          for_each (Scenario.c2 :: rest) (loop_body (L := Mini.lib) Scenario.good_disk outfile) s
          = for_each rest (loop_body (L := Mini.lib) Scenario.good_disk outfile) s' /\
          stdout s'
          = (stdout s
             ++ [skip_message "2222222222222222222222222222222222222222" e])%list /\
          files s' = files s).
Proof.
  apply (@unparseable_commit_is_skipped Mini.lib Scenario.host Scenario.good_disk
           Scenario.stale_dir _ Scenario.walk Scenario.c2
           "2222222222222222222222222222222222222222").
  - vm_compute. reflexivity.
  - reflexivity.
  - repeat constructor; simpl; intuition discriminate.
  - reflexivity.
  - evaluate_reads_back.
  - simpl. tauto.
  - reflexivity.
  - left. eexists. reflexivity.
Defined.

Lemma is_skip_diagnostic_found (n : nat) : is_skip_diagnostic (found_message n) = false.
Proof. unfold is_skip_diagnostic, found_message. cbn [append]. now rewrite prefix_cons. Qed.

Lemma is_skip_diagnostic_done : is_skip_diagnostic done_message = false.
Proof. reflexivity. Qed.

(** C3. In a run that completes, the first line printed shows a count, read
    from the text of that line as the number between "Found " and
    " commits affecting beer.json"; the number of lines of the output file
    plus the number of diagnostics printed is that count, which is the number
    of commits of the walk: each commit gives a line or a diagnostic.  The
    library writes each record on one line. *)
Theorem lines_plus_diagnostics_is_count {L : PyLib} (host : Host) (disk : Disk)
    (prior : string -> option string) (st : State) (commits : list Commit) :
  run host disk prior = (st, Ok tt) ->
  history host = Ok commits ->
  Forall one_line (emitted commits) ->
  exists first,
    hd_error (stdout st) = Some first /\
    printed_count first
    = Some (List.length (output_lines st)
            + List.length (filter is_skip_diagnostic (stdout st))) /\
    printed_count first = Some (List.length commits) /\
    (forall c, In c commits ->
       (exists r, verdict_of c = Emit r) \/ (exists msg, verdict_of c = Skip msg)).
Proof.
  intros Hrun Hh Hline.
  destruct (run_completed _ _ _ Hrun Hh) as (Hout & Hfile & Hok).
  apply output_lines_of in Hfile; [|now apply Forall_no_LF_map].
  exists (found_message (List.length commits)).
  rewrite Hout, Hfile, printed_count_found. split; [reflexivity|]. split; [|split].
  - f_equal. cbn [filter]. rewrite is_skip_diagnostic_found, filter_app. cbn [filter].
    rewrite is_skip_diagnostic_done, app_nil_r, filter_diagnostics_skipped, length_map.
    symmetry. now apply emitted_plus_skipped.
  - reflexivity.
  - rewrite Forall_forall in Hok. intros c Hin. specialize (Hok c Hin).
    destruct (verdict_of c) as [r|msg|e]; [left; eauto | right; eauto | now destruct (Hok e)].
Qed.

Lemma lines_plus_diagnostics_is_count_witness :
  exists first,
    hd_error (stdout (fst (run (L := Mini.lib) Scenario.host Scenario.good_disk
                             Scenario.stale_dir)))
    = Some first /\
    printed_count first
    = Some (List.length (output_lines
                           (fst (run (L := Mini.lib) Scenario.host Scenario.good_disk
                                   Scenario.stale_dir)))
            + List.length (filter is_skip_diagnostic
                             (stdout (fst (run (L := Mini.lib) Scenario.host
                                             Scenario.good_disk Scenario.stale_dir))))) /\
    printed_count first = Some (List.length Scenario.walk) /\
    (forall c, In c Scenario.walk ->
       (exists r, verdict_of (L := Mini.lib) c = Emit r) \/
       (exists msg, verdict_of (L := Mini.lib) c = Skip msg)).
Proof.
  apply (@lines_plus_diagnostics_is_count Mini.lib Scenario.host Scenario.good_disk
           Scenario.stale_dir _ Scenario.walk).
  - vm_compute. reflexivity.
  - reflexivity.
  - evaluate_one_line.
Defined.

(** C4. The output file of a run that completes is made of its lines, each
    ended by one line feed and nothing else; each line, parsed on its own, is
    an object with exactly the keys [commit], [timestamp] and [data]: it
    reads as a Revision Record whose [commit] is a hexadecimal string of 40
    characters or more and whose [timestamp] is an ISO-8601 string.  The
    repository hands out such hashes and timestamps, and the library reads
    back what it wrote. *)
Theorem every_line_is_a_record {L : PyLib} (host : Host) (disk : Disk)
    (prior : string -> option string) (st : State) (commits : list Commit) :
  run host disk prior = (st, Ok tt) ->
  history host = Ok commits ->
  hex_hashes commits = true ->
  iso_timestamps commits = true ->
  Forall reads_back (emitted commits) ->
  output_file st = Some (unlines (output_lines st)) /\
  forall line, In line (output_lines st) ->
    keys line = Some ["commit"; "timestamp"; "data"] /\
    exists h t d,
      json_loads line = Ok (Revision_Record h t d) /\
      field line "commit" = Some (PyStr h) /\ is_hexsha h = true /\
      field line "timestamp" = Some (PyStr t) /\ is_iso8601 t = true /\
      field line "data" = Some d.
Proof.
  intros Hrun Hh Hhex Hiso Hback.
  destruct (run_completed _ _ _ Hrun Hh) as (_ & Hfile & _).
  pose proof (output_lines_of _ Hfile (Forall_reads_back_no_LF _ Hback)) as Hlines.
  rewrite Hlines. split; [exact Hfile|].
  intros line Hl. apply in_map_iff in Hl as (r & <- & Hr).
  rewrite Forall_forall in Hback. specialize (Hback r Hr).
  pose proof (emitted_dumped _ _ Hr) as Hdump.
  apply emitted_In in Hr as (c & Hin & Ev).
  apply verdict_emit_inv in Ev as (h & dt & d & Hhash & Hdt & _ & ->).
  destruct (keys_line Hdump Hback) as (Hloads & Hk & Hc & Ht & Hd).
  split; [exact Hk|]. exists h, (isoformat dt), d.
  repeat split; auto.
  - exact (hex_hashes_In _ _ Hhex Hin Hhash).
  - exact (iso_timestamps_In _ _ Hiso Hin Hdt).
Qed.

Lemma every_line_is_a_record_witness :
  let st := fst (run (L := Mini.lib) Scenario.host Scenario.good_disk Scenario.stale_dir) in
  output_file st = Some (unlines (output_lines st)) /\
  forall line, In line (output_lines st) ->
    keys (L := Mini.lib) line = Some ["commit"; "timestamp"; "data"] /\
    exists h t d,
      json_loads (PyLib := Mini.lib) line = Ok (Revision_Record (L := Mini.lib) h t d) /\
      field (L := Mini.lib) line "commit" = Some (PyStr h) /\ is_hexsha h = true /\
      field (L := Mini.lib) line "timestamp" = Some (PyStr t) /\ is_iso8601 t = true /\
      field (L := Mini.lib) line "data" = Some d.
Proof.
  apply (@every_line_is_a_record Mini.lib Scenario.host Scenario.good_disk
           Scenario.stale_dir _ Scenario.walk).
  - vm_compute. reflexivity.
  - reflexivity.
  - reflexivity.
  - reflexivity.
  - evaluate_reads_back.
Defined.

(** C5. In a run that completes, the output file has one line for each commit
    of the walk whose file parses, and line [i] is the serialization of the
    Revision Record of the [i]-th such commit, in the order of the walk: the
    text [json.dumps] gives for the object made of that commit's hash, of its
    commit time and of the value parsed from its file, which is what the
    line shows when it is read on its own.  The library reads back what it
    wrote. *)
Theorem lines_follow_the_walk {L : PyLib} (host : Host) (disk : Disk)
    (prior : string -> option string) (st : State) (commits : list Commit) :
  run host disk prior = (st, Ok tt) ->
  history host = Ok commits ->
  Forall reads_back (emitted commits) ->
  List.length (output_lines st) = List.length (filter parseable commits) /\
  forall i c,
    nth_error (filter parseable commits) i = Some c ->
    exists h dt d line,
      hexsha c = Ok h /\ committed_datetime c = Ok dt /\ extract c = Ok d /\
      nth_error (output_lines st) i = Some line /\
      json_dumps (Revision_Record h (isoformat dt) d) = Ok line /\
      field line "commit" = Some (PyStr h) /\
      field line "timestamp" = Some (PyStr (isoformat dt)) /\
      field line "data" = Some d.
Proof.
  intros Hrun Hh Hback.
  destruct (run_completed _ _ _ Hrun Hh) as (_ & Hfile & Hok).
  apply output_lines_of in Hfile; [|now apply Forall_reads_back_no_LF].
  pose proof (emitted_parseable Hok) as Heq.
  rewrite Hfile. split.
  - rewrite length_map, <- (length_map Some), Heq. apply length_map.
  - intros i c Hc.
    assert (Hi : nth_error (map Some (emitted commits)) i
                 = nth_error (map revision_record (filter parseable commits)) i)
      by now rewrite Heq.
    rewrite !nth_error_map, Hc in Hi. cbn [option_map] in Hi.
    destruct (nth_error (emitted commits) i) as [r|] eqn:Hr; [|discriminate].
    injection Hi as Hrec. unfold revision_record in Hrec.
    destruct (verdict_of c) as [r'| |] eqn:Ev; try discriminate.
    injection Hrec as <-.
    pose proof (verdict_emit_dumped _ Ev) as Hdump.
    apply verdict_emit_inv in Ev as (h & dt & d & Hhash & Hdt & Hex & ->).
    apply nth_error_In in Hr as Hin.
    rewrite Forall_forall in Hback. specialize (Hback _ Hin).
    destruct (keys_line Hdump Hback) as (_ & _ & Hfc & Hft & Hfd).
    exists h, dt, d, (dumped (record h (isoformat dt) d)).
    rewrite nth_error_map, Hr. repeat split; auto.
Qed.

Lemma lines_follow_the_walk_witness :
  let st := fst (run (L := Mini.lib) Scenario.host Scenario.good_disk Scenario.stale_dir) in
  List.length (output_lines st)
  = List.length (filter (parseable (L := Mini.lib)) Scenario.walk) /\
  forall i c,
    nth_error (filter (parseable (L := Mini.lib)) Scenario.walk) i = Some c ->
    exists h dt d line,
      hexsha c = Ok h /\ committed_datetime c = Ok dt /\
      extract (L := Mini.lib) c = Ok d /\
      nth_error (output_lines st) i = Some line /\
      json_dumps (PyLib := Mini.lib) (Revision_Record (L := Mini.lib) h (isoformat dt) d)
      = Ok line /\
      field (L := Mini.lib) line "commit" = Some (PyStr h) /\
      field (L := Mini.lib) line "timestamp" = Some (PyStr (isoformat dt)) /\
      field (L := Mini.lib) line "data" = Some d.
Proof.
  apply (@lines_follow_the_walk Mini.lib Scenario.host Scenario.good_disk
           Scenario.stale_dir _ Scenario.walk).
  - vm_compute. reflexivity.
  - reflexivity.
  - evaluate_reads_back.
Defined.

Lemma run_completed_history {L : PyLib} (host : Host) (disk : Disk)
      (prior : string -> option string) (st : State) :
  run host disk prior = (st, Ok tt) -> exists commits, history host = Ok commits.
Proof.
  rewrite run_unfold. destruct (history host) as [commits|e]; [eauto | discriminate].
Qed.

(** C6. Two runs on the same repository that complete leave the same output
    file, whatever the working directory held before each of them and
    whatever the disk: the file is truncated and rebuilt from the same walk. *)
Theorem rerun_is_byte_identical {L : PyLib} (host : Host) (disk1 disk2 : Disk)
    (prior1 prior2 : string -> option string) (st1 st2 : State) :
  run host disk1 prior1 = (st1, Ok tt) ->
  run host disk2 prior2 = (st2, Ok tt) ->
  output_file st1 = output_file st2 /\
  exists content, output_file st1 = Some content.
Proof.
  intros H1 H2.
  destruct (run_completed_history _ _ _ H1) as (commits & Hh).
  destruct (run_completed _ _ _ H1 Hh) as (_ & Hf1 & _).
  destruct (run_completed _ _ _ H2 Hh) as (_ & Hf2 & _).
  rewrite Hf1, Hf2. split; [reflexivity | eauto].
Qed.

Lemma rerun_is_byte_identical_witness :
  let first := fst (run (L := Mini.lib) Scenario.host Scenario.good_disk Scenario.stale_dir) in
  let second := fst (run (L := Mini.lib) Scenario.host (Scenario.small_disk 1000) (files first)) in
  output_file first = output_file second /\
  exists content, output_file first = Some content.
Proof.
  apply (@rerun_is_byte_identical Mini.lib Scenario.host
           Scenario.good_disk (Scenario.small_disk 1000)
           Scenario.stale_dir
           (files (fst (run (L := Mini.lib) Scenario.host Scenario.good_disk Scenario.stale_dir)))).
  - vm_compute. reflexivity.
  - vm_compute. reflexivity.
Defined.

(** C7. When opening the repository fails, the exception ends the run: nothing
    was printed, no commit was read, and the files of the working directory
    are the ones from before, the output file among them. *)
Theorem repository_open_failure_is_fatal {L : PyLib} (host : Host) (disk : Disk)
    (prior : string -> option string) (e : pyexc) :
  open_Repo host LOCAL_DIR = Err e ->
  run host disk prior = ({| stdout := []; files := prior; reads := [] |}, Err e).
Proof.
  intros He. rewrite run_unfold. unfold history. now rewrite He.
Qed.

Lemma repository_open_failure_is_fatal_witness :
  run (L := Mini.lib) Scenario.no_repo Scenario.good_disk Scenario.stale_dir
  = ({| stdout := []; files := Scenario.stale_dir; reads := [] |},
     Err (Exc InvalidGitRepositoryError ".")).
Proof.
  apply (@repository_open_failure_is_fatal Mini.lib Scenario.no_repo Scenario.good_disk
           Scenario.stale_dir (Exc InvalidGitRepositoryError ".")).
  reflexivity.
Defined.



(** C9. When the walk yields no commit and the output file can be opened,
    the run completes: it prints the count of zero and the completion
    message, and leaves an empty output file, created or truncated. *)
Theorem empty_history_gives_empty_file {L : PyLib} (host : Host) (disk : Disk)
    (prior : string -> option string) (repo : Repo) :
  open_Repo host LOCAL_DIR = Ok repo ->
  iter_commits repo JSON_FILENAME = Ok [] ->
  open_fault disk OUTPUT_FILE = None ->
  exists st,
    run host disk prior = (st, Ok tt) /\
    stdout st = ["Found 0 commits affecting beer.json";
                 "All versions extracted into beer_versions.jsonl"] /\
    output_file st = Some "" /\
    output_lines st = [] /\
    reads st = [].
Proof.
  intros Hrepo Hwalk Hopen. eexists. split.
  - rewrite run_unfold. unfold history. rewrite Hrepo, Hwalk. cbv zeta.
    rewrite Hopen. reflexivity.
  - repeat split.
Qed.

Lemma empty_history_gives_empty_file_witness :
  exists st,
    run (L := Mini.lib) (Scenario.host_of []) Scenario.good_disk Scenario.stale_dir
    = (st, Ok tt) /\
    stdout st = ["Found 0 commits affecting beer.json";
                 "All versions extracted into beer_versions.jsonl"] /\
    output_file st = Some "" /\
    output_lines st = [] /\
    reads st = [].
Proof.
  apply (@empty_history_gives_empty_file Mini.lib (Scenario.host_of []) Scenario.good_disk
           Scenario.stale_dir (Scenario.repo_of [])); reflexivity.
Defined.

Lemma commit_fields_NoDup {L : PyLib} (commits : list Commit) :
  NoDup (map hexsha commits) ->
  Forall reads_back (emitted commits) ->
  NoDup (map (fun l => field l "commit") (map dumped (emitted commits))).
Proof.
  induction commits as [|c rest IH]; cbn [map emitted]; intros Hnd Hback; [constructor|].
  apply NoDup_cons_iff in Hnd as [Hnew Hnd].
  destruct (verdict_of c) as [r|msg|e] eqn:Ev; auto.
  apply Forall_cons_iff in Hback as [Hr Hback].
  cbn [map]. constructor; auto.
  pose proof (verdict_emit_dumped _ Ev) as Hdump.
  apply verdict_emit_inv in Ev as (h & dt & d & Hh & _ & _ & ->).
  destruct (keys_line Hdump Hr) as (_ & _ & Hc & _). rewrite Hc.
  intros Hin. rewrite map_map in Hin.
  apply in_map_iff in Hin as (r' & Hf & Hr').
  rewrite Forall_forall in Hback. specialize (Hback r' Hr').
  apply emitted_In in Hr' as (c' & Hin' & Ev').
  pose proof (verdict_emit_dumped _ Ev') as Hdump'.
  apply verdict_emit_inv in Ev' as (h' & dt' & d' & Hh' & _ & _ & ->).
  destruct (keys_line Hdump' Hback) as (_ & _ & Hc' & _). rewrite Hc' in Hf.
  injection Hf as ->. apply Hnew. rewrite Hh, <- Hh'. now apply in_map.
Qed.

(** C10. When the walk yields each hash at most once, no two lines of the
    output file have the same [commit]: this holds of the file of every run
    that opened it.  The library reads back what it wrote. *)
Theorem commit_hashes_are_unique_in_output {L : PyLib} (host : Host) (disk : Disk)
    (prior : string -> option string) (st : State) (out : result unit)
    (commits : list Commit) :
  run host disk prior = (st, out) ->
  history host = Ok commits ->
  open_fault disk OUTPUT_FILE = None ->
  NoDup (map hexsha commits) ->
  Forall reads_back (emitted commits) ->
  NoDup (map (fun line => field line "commit") (output_lines st)).
Proof.
  intros Hrun Hh Ho Hnd Hback.
  destruct (run_opened _ _ _ Hh Ho Hrun) as (pre & post & -> & _ & Hfile & _ & _).
  rewrite emitted_app in Hback. apply Forall_app in Hback as [Hback _].
  rewrite (output_lines_of _ Hfile (Forall_reads_back_no_LF _ Hback)).
  rewrite map_app in Hnd. apply NoDup_app_remove_r in Hnd.
  now apply commit_fields_NoDup.
Qed.

Lemma commit_hashes_are_unique_in_output_witness :
  NoDup (map (fun line => field (L := Mini.lib) line "commit")
           (output_lines
              (fst (run (L := Mini.lib) Scenario.host Scenario.good_disk Scenario.stale_dir)))).
Proof.
  apply (@commit_hashes_are_unique_in_output Mini.lib Scenario.host Scenario.good_disk
           Scenario.stale_dir _
           (snd (run (L := Mini.lib) Scenario.host Scenario.good_disk Scenario.stale_dir))
           Scenario.walk).
  - vm_compute. reflexivity.
  - reflexivity.
  - reflexivity.
  - repeat constructor; simpl; intuition discriminate.
  - evaluate_reads_back.
Defined.

(* ================================================================== *)
(** * More on the loop and on whole runs *)

Section MoreLoop.

Context {L : PyLib}.
Variable disk : Disk.

Lemma set_file_other (fs : string -> option string) (path content p : string) :
  p <> path -> set_file fs path content p = fs p.
Proof. unfold set_file. intros H. apply String.eqb_neq in H. now rewrite H. Qed.

(** The loop writes to its handle only. *)
Lemma for_each_other_files (f : string) (commits : list Commit) :
  forall (s s' : State) (out : result unit),
    for_each commits (loop_body disk f) s = (s', out) ->
    forall p, p <> f -> files s' p = files s p.
Proof.
  induction commits as [|c rest IH]; intros s s' out Hrun p Hp.
  - now inversion Hrun.
  - cbn [for_each] in Hrun. unfold bind in Hrun. rewrite loop_body_run in Hrun.
    destruct (verdict_of c) as [r|msg|e].
    + unfold write in Hrun.
      destruct (write_fault disk f _ _) as [e|].
      * inversion Hrun; subst. now rewrite files_touch.
      * rewrite (IH _ _ _ Hrun p Hp). cbn [files].
        now rewrite set_file_other, files_touch.
    + unfold print in Hrun. rewrite (IH _ _ _ Hrun p Hp). cbn [files].
      now rewrite files_touch.
    + inversion Hrun; subst. now rewrite files_touch.
Qed.

(** A loop that ends with an exception ends at the commit that raised it:
    the commits before it gave their lines and diagnostics, the ones after it
    gave nothing. *)
Lemma for_each_abort (f : string) (commits : list Commit) :
  forall (s s' : State) (e : pyexc) (content : string),
    for_each commits (loop_body disk f) s = (s', Err e) ->
    files s f = Some content ->
    exists pre c post,
      commits = (pre ++ c :: post)%list /\
      stdout s' = (stdout s ++ skipped pre)%list /\
      files s' f = Some (content ++ unlines (map dumped (emitted pre))) /\
      Forall (fun c => forall e, verdict_of c <> Fatal e) pre /\
      (verdict_of c = Fatal e \/
       exists r, verdict_of c = Emit r /\
                 write_fault disk f (content ++ unlines (map dumped (emitted pre)))
                   (dumped r ++ LF) = Some e).
Proof.
  induction commits as [|c rest IH]; intros s s' e0 content Hrun Hf.
  - inversion Hrun.
  - cbn [for_each] in Hrun. unfold bind in Hrun. rewrite loop_body_run in Hrun.
    destruct (verdict_of c) as [r|msg|e] eqn:Ev.
    + unfold write in Hrun. rewrite files_touch in Hrun.
      unfold content_of in Hrun at 1. rewrite Hf in Hrun.
      destruct (write_fault disk f content (dumped r ++ LF)) as [e|] eqn:Ew.
      * inversion Hrun; subst. exists [], c, rest. simpl.
        rewrite stdout_touch, files_touch, app_nil_r, append_empty_r.
        repeat split; auto. right. exists r. now rewrite Ev.
      * unfold content_of in Hrun. rewrite Hf in Hrun.
        eapply IH in Hrun; [|apply set_file_same].
        destruct Hrun as (pre & c' & post & -> & Hout & Hfile & Hpre & Hcause).
        exists (c :: pre), c', post. cbn [emitted skipped map unlines app stdout] in *.
        rewrite Ev. cbn [map unlines]. rewrite stdout_touch in Hout.
        rewrite Hout, Hfile, !append_assoc.
        rewrite !append_assoc in Hcause.
        repeat split; auto. constructor; auto. intros e. rewrite Ev. discriminate.
    + unfold print in Hrun. eapply IH in Hrun; [|cbn [files]; rewrite files_touch; exact Hf].
      destruct Hrun as (pre & c' & post & -> & Hout & Hfile & Hpre & Hcause).
      exists (c :: pre), c', post. cbn [emitted skipped map unlines app stdout] in *.
      rewrite Ev. rewrite stdout_touch in Hout.
      rewrite Hout, Hfile, <- app_assoc.
      repeat split; auto. constructor; auto. intros e. rewrite Ev. discriminate.
    + inversion Hrun; subst. exists [], c, rest. simpl.
      rewrite stdout_touch, files_touch, app_nil_r, append_empty_r.
      repeat split; auto.
Qed.

Lemma touch_reads (c : Commit) (s : State) :
  (forall e, verdict_of c <> Fatal e) ->
  map Ok (reads (touch c s))
  = (map Ok (reads s) ++ map hexsha (filter has_file [c]))%list.
Proof.
  intros Hc. destruct (verdict_not_fatal_inv _ Hc) as (h & dt & Hh & Hdt & _).
  unfold touch, read_log, has_file. cbn [filter]. rewrite Hh, Hdt.
  destruct (tree_div (tree c) JSON_FILENAME); cbn [reads map].
  - now rewrite map_app, Hh.
  - now rewrite app_nil_r.
Qed.

(** A loop that completes has read, in order, the commits that have the file. *)
Lemma for_each_reads_completed (f : string) (commits : list Commit) :
  forall (s s' : State),
    for_each commits (loop_body disk f) s = (s', Ok tt) ->
    map Ok (reads s') = (map Ok (reads s) ++ map hexsha (filter has_file commits))%list.
Proof.
  induction commits as [|c rest IH]; intros s s' Hrun.
  - inversion Hrun; subst. cbn. now rewrite app_nil_r.
  - cbn [for_each] in Hrun. unfold bind in Hrun. rewrite loop_body_run in Hrun.
    assert (Hsplit : filter has_file (c :: rest)
                     = (filter has_file [c] ++ filter has_file rest)%list).
    { cbn [filter]. now destruct (has_file c). }
    rewrite Hsplit, map_app, app_assoc.
    destruct (verdict_of c) as [r|msg|e] eqn:Ev.
    + unfold write in Hrun. destruct (write_fault disk f _ _); [discriminate|].
      rewrite (IH _ _ Hrun). cbn [reads]. f_equal. apply touch_reads.
      intros e. rewrite Ev. discriminate.
    + unfold print in Hrun. rewrite (IH _ _ Hrun). cbn [reads]. f_equal.
      apply touch_reads. intros e. rewrite Ev. discriminate.
    + discriminate.
Qed.

(** In a run without fatal commits, the unparseable commits are the ones
    that give a diagnostic. *)
Lemma skipped_unparseable (commits : list Commit) :
  Forall (fun c => forall e, verdict_of c <> Fatal e) commits ->
  map Some (skipped commits) = map diagnostic_of (filter unparseable commits).
Proof.
  induction 1 as [|c rest Hc _ IH]; [reflexivity|].
  cbn [skipped filter]. unfold unparseable at 1, parseable at 1.
  destruct (verdict_of c) as [r|msg|e] eqn:Ev.
  - apply verdict_emit_inv in Ev as (h & dt & d & _ & _ & Hd & _).
    rewrite Hd. exact IH.
  - apply verdict_skip_inv in Ev as (h & e & Hh & He & _ & ->).
    rewrite He. cbn [negb map]. unfold diagnostic_of at 1. now rewrite Hh, He, IH.
  - now destruct (Hc e).
Qed.

End MoreLoop.

(* ================================================================== *)
(** * Further properties of the script *)

(** X1. A run changes no file of the working directory but the output file,
    however it ends. *)
Theorem other_files_are_untouched {L : PyLib} (host : Host) (disk : Disk)
    (prior : string -> option string) (st : State) (out : result unit) (p : string) :
  run host disk prior = (st, out) ->
  p <> OUTPUT_FILE ->
  files st p = prior p.
Proof.
  intros Hrun Hp. rewrite run_unfold in Hrun.
  destruct (history host) as [commits|e]; [|now inversion Hrun].
  cbv zeta in Hrun.
  destruct (open_fault disk OUTPUT_FILE) as [e|]; [now inversion Hrun|].
  destruct (for_each commits _ _) as [s' [[]|e]] eqn:Hloop;
    apply for_each_other_files with (p := p) in Hloop; try exact Hp;
    cbn [files] in Hloop; rewrite set_file_other in Hloop by exact Hp;
    inversion Hrun; subst; exact Hloop.
Qed.

Lemma other_files_are_untouched_witness :
  files (fst (run (L := Mini.lib) Scenario.host Scenario.good_disk Faults.busy_dir)) "notes.txt"
  = Faults.busy_dir "notes.txt".
Proof.
  apply (@other_files_are_untouched Mini.lib Scenario.host Scenario.good_disk Faults.busy_dir
           _ (snd (run (L := Mini.lib) Scenario.host Scenario.good_disk Faults.busy_dir))
           "notes.txt").
  - vm_compute. reflexivity.
  - discriminate.
Defined.

Lemma skipped_are_diagnostics {L : PyLib} (commits : list Commit) (msg : string) :
  In msg (skipped commits) -> is_skip_diagnostic msg = true.
Proof.
  intros H. rewrite <- filter_diagnostics_skipped in H.
  now apply filter_In in H.
Qed.

(** X3. In a run that completes, a commit of the walk whose file parses has a
    line that reads back as the record of that commit: its own hash, its own
    commit time as [isoformat()] gives it, and the parsed value, all three in
    the same line.  The library reads back what it wrote. *)
Theorem line_carries_hash_timestamp_and_data {L : PyLib} (host : Host) (disk : Disk)
    (prior : string -> option string) (st : State) (commits : list Commit)
    (c : Commit) (h : string) (dt : datetime) (d : value) :
  run host disk prior = (st, Ok tt) ->
  history host = Ok commits ->
  Forall reads_back (emitted commits) ->
  In c commits ->
  hexsha c = Ok h ->
  committed_datetime c = Ok dt ->
  extract c = Ok d ->
  exists line,
    In line (output_lines st) /\
    json_loads line = Ok (record h (isoformat dt) d) /\
    field line "commit" = Some (PyStr h) /\
    field line "timestamp" = Some (PyStr (isoformat dt)) /\
    field line "data" = Some d.
Proof.
  intros Hrun Hh Hback Hin Hhash Hdt Hex.
  destruct (run_completed _ _ _ Hrun Hh) as (_ & Hfile & Hok).
  apply output_lines_of in Hfile; [|now apply Forall_reads_back_no_LF].
  rewrite Forall_forall in Hok.
  pose proof (verdict_parsed _ (Hok c Hin) Hhash Hdt Hex) as Ev.
  pose proof (verdict_emit_dumped _ Ev) as Hdump.
  assert (Hr : In (record h (isoformat dt) d) (emitted commits)).
  { apply emitted_In. exists c. auto. }
  rewrite Forall_forall in Hback. specialize (Hback _ Hr).
  destruct (keys_line Hdump Hback) as (Hloads & _ & Hc & Ht & Hd).
  exists (dumped (record h (isoformat dt) d)). rewrite Hfile.
  repeat split; auto.
  now apply in_map.
Qed.

Lemma line_carries_hash_timestamp_and_data_witness :
  exists line,
    In line (output_lines
               (fst (run (L := Mini.lib) Scenario.host Scenario.good_disk Scenario.stale_dir))) /\
    json_loads (PyLib := Mini.lib) line
    = Ok (record (L := Mini.lib) "1111111111111111111111111111111111111111"
            "2024-03-01T09:00:00+11:00" (PyDict [("a", PyInt 1)])) /\
    field (L := Mini.lib) line "commit"
    = Some (PyStr "1111111111111111111111111111111111111111") /\
    field (L := Mini.lib) line "timestamp" = Some (PyStr "2024-03-01T09:00:00+11:00") /\
    field (L := Mini.lib) line "data" = Some (PyDict [("a", PyInt 1)]).
Proof.
  apply (@line_carries_hash_timestamp_and_data Mini.lib Scenario.host Scenario.good_disk
           Scenario.stale_dir _ Scenario.walk Scenario.c1
           "1111111111111111111111111111111111111111"
           {| isoformat := "2024-03-01T09:00:00+11:00" |} (PyDict [("a", PyInt 1)])).
  - vm_compute. reflexivity.
  - reflexivity.
  - evaluate_reads_back.
  - simpl. tauto.
  - reflexivity.
  - reflexivity.
  - reflexivity.
Defined.

(** X4. In a run that completes, there is one diagnostic for each commit of
    the walk whose [try] block raises, and diagnostic [i] is, letter for
    letter, "Skipping commit ", the hash of the [i]-th such commit,
    " due to error: " and the text of the exception that commit raised, in the
    order of the walk. *)
Theorem diagnostics_follow_the_walk {L : PyLib} (host : Host) (disk : Disk)
    (prior : string -> option string) (st : State) (commits : list Commit) :
  run host disk prior = (st, Ok tt) ->
  history host = Ok commits ->
  List.length (filter is_skip_diagnostic (stdout st))
  = List.length (filter unparseable commits) /\
  forall i c,
    nth_error (filter unparseable commits) i = Some c ->
    exists h e,
      hexsha c = Ok h /\
      extract c = Err e /\
      nth_error (filter is_skip_diagnostic (stdout st)) i
      = Some ("Skipping commit " ++ h ++ " due to error: " ++ exc_str e).
Proof.
  intros Hrun Hh.
  destruct (run_completed _ _ _ Hrun Hh) as (Hout & _ & Hok).
  pose proof (skipped_unparseable Hok) as Heq.
  rewrite Hout. cbn [filter]. rewrite is_skip_diagnostic_found, filter_app. cbn [filter].
  rewrite is_skip_diagnostic_done, app_nil_r, filter_diagnostics_skipped. split.
  - rewrite <- (length_map Some), Heq. apply length_map.
  - intros i c Hc.
    assert (Hi : nth_error (map Some (skipped commits)) i
                 = nth_error (map diagnostic_of (filter unparseable commits)) i)
      by now rewrite Heq.
    rewrite !nth_error_map, Hc in Hi. cbn [option_map] in Hi.
    assert (Hin : In c commits).
    { apply nth_error_In in Hc. now apply filter_In in Hc. }
    rewrite Forall_forall in Hok.
    destruct (verdict_not_fatal_inv _ (Hok c Hin)) as (h & dt & Hhash & _ & _).
    apply nth_error_In in Hc. apply filter_In in Hc as [_ Hun].
    unfold unparseable, parseable in Hun.
    destruct (extract c) as [d|e] eqn:Hex; [discriminate|].
    exists h, e. repeat split; auto.
    unfold diagnostic_of in Hi. rewrite Hhash, Hex in Hi.
    destruct (nth_error (skipped commits) i) as [msg|]; [|discriminate].
    injection Hi as ->. reflexivity.
Qed.

Lemma diagnostics_follow_the_walk_witness :
  let st := fst (run (L := Mini.lib) Scenario.host Scenario.good_disk Scenario.stale_dir) in
  List.length (filter is_skip_diagnostic (stdout st))
  = List.length (filter (unparseable (L := Mini.lib)) Scenario.walk) /\
  forall i c,
    nth_error (filter (unparseable (L := Mini.lib)) Scenario.walk) i = Some c ->
    exists h e,
      hexsha c = Ok h /\
      extract (L := Mini.lib) c = Err e /\
      nth_error (filter is_skip_diagnostic (stdout st)) i
      = Some ("Skipping commit " ++ h ++ " due to error: " ++ exc_str e).
Proof.
  apply (@diagnostics_follow_the_walk Mini.lib Scenario.host Scenario.good_disk
           Scenario.stale_dir _ Scenario.walk).
  - vm_compute. reflexivity.
  - reflexivity.
Defined.

(** X5. The output file is built commit by commit: when the walk of one
    repository is the walk [xs] of a second followed by the walk [ys] of a
    third, and the three runs complete, the output file of the first is the
    output file of the second followed by the output file of the third.  So
    new commits on top of a history add their lines above the lines already
    there, which stay as they were. *)
Theorem output_of_a_longer_history {L : PyLib} (host host_xs host_ys : Host)
    (disk disk_xs disk_ys : Disk) (prior prior_xs prior_ys : string -> option string)
    (st st_xs st_ys : State) (xs ys : list Commit) :
  history host = Ok (xs ++ ys)%list ->
  history host_xs = Ok xs ->
  history host_ys = Ok ys ->
  run host disk prior = (st, Ok tt) ->
  run host_xs disk_xs prior_xs = (st_xs, Ok tt) ->
  run host_ys disk_ys prior_ys = (st_ys, Ok tt) ->
  exists above below,
    output_file st_xs = Some above /\
    output_file st_ys = Some below /\
    output_file st = Some (above ++ below).
Proof.
  intros Hh Hhx Hhy Hrun Hrunx Hruny.
  destruct (run_completed _ _ _ Hrun Hh) as (_ & Hf & _).
  destruct (run_completed _ _ _ Hrunx Hhx) as (_ & Hfx & _).
  destruct (run_completed _ _ _ Hruny Hhy) as (_ & Hfy & _).
  exists (unlines (map dumped (emitted xs))), (unlines (map dumped (emitted ys))).
  repeat split; auto.
  now rewrite Hf, emitted_app, map_app, unlines_app.
Qed.

Lemma output_of_a_longer_history_witness :
  exists above below,
    output_file (fst (run (L := Mini.lib) (Scenario.host_of [Scenario.c5; Scenario.c4])
                        Scenario.good_disk Scenario.empty_dir)) = Some above /\
    output_file (fst (run (L := Mini.lib)
                        (Scenario.host_of [Scenario.c3; Scenario.c2; Scenario.c1])
                        Scenario.good_disk Scenario.empty_dir)) = Some below /\
    output_file (fst (run (L := Mini.lib) Scenario.host Scenario.good_disk Scenario.stale_dir))
    = Some (above ++ below).
Proof.
  apply (@output_of_a_longer_history Mini.lib Scenario.host
           (Scenario.host_of [Scenario.c5; Scenario.c4])
           (Scenario.host_of [Scenario.c3; Scenario.c2; Scenario.c1])
           Scenario.good_disk Scenario.good_disk Scenario.good_disk
           Scenario.stale_dir Scenario.empty_dir Scenario.empty_dir _ _ _
           [Scenario.c5; Scenario.c4] [Scenario.c3; Scenario.c2; Scenario.c1]).
  - reflexivity.
  - reflexivity.
  - reflexivity.
  - vm_compute. reflexivity.
  - vm_compute. reflexivity.
  - vm_compute. reflexivity.
Defined.

(** X6. In a run that completes, no diagnostic names a commit of the walk
    whose file parses: such a commit has its line and is never reported as
    skipped.  The walk yields each hash once and hashes are hexadecimal. *)
Theorem parsed_commit_has_no_diagnostic {L : PyLib} (host : Host) (disk : Disk)
    (prior : string -> option string) (st : State) (commits : list Commit)
    (c : Commit) (h : string) (d : value) :
  run host disk prior = (st, Ok tt) ->
  history host = Ok commits ->
  NoDup (map hexsha commits) ->
  hex_hashes commits = true ->
  In c commits ->
  hexsha c = Ok h ->
  extract c = Ok d ->
  filter (names_commit h) (stdout st) = [].
Proof.
  intros Hrun Hh Hnd Hhex Hin Hhash Hex.
  destruct (run_completed _ _ _ Hrun Hh) as (Hout & _ & Hok).
  rewrite Forall_forall in Hok.
  destruct (verdict_not_fatal_inv _ (Hok c Hin)) as (h0 & dt & Hh0 & Hdt & _).
  pose proof (verdict_parsed _ (Hok c Hin) Hhash Hdt Hex) as Ev.
  assert (Hhexh : all_chars is_hex_digit h = true).
  { apply is_hexsha_chars. exact (hex_hashes_In _ _ Hhex Hin Hhash). }
  rewrite Hout. cbn [filter]. rewrite names_commit_found, filter_app.
  cbn [filter]. rewrite names_commit_done, app_nil_r.
  apply in_split in Hin as (xs & ys & ->).
  rewrite skipped_app. cbn [skipped]. rewrite Ev, filter_app.
  assert (Hothers : forall c' h', In c' (xs ++ ys) -> hexsha c' = Ok h' ->
                      h' <> h /\ all_chars is_hex_digit h' = true).
  { intros c' h' Hin' Hh'. split.
    - intros ->. apply (@NoDup_map_split _ _ hexsha xs ys c c' Hnd Hin'). congruence.
    - apply is_hexsha_chars. apply (hex_hashes_In _ c' Hhex); auto.
      apply in_app_or in Hin' as [|]; apply in_or_app; [now left | right; now right]. }
  rewrite !filter_names_commit_others; auto.
  - intros c' h' Hin'. apply Hothers. apply in_or_app. now right.
  - intros c' h' Hin'. apply Hothers. apply in_or_app. now left.
Qed.

Lemma parsed_commit_has_no_diagnostic_witness :
  filter (names_commit "4444444444444444444444444444444444444444")
    (stdout (fst (run (L := Mini.lib) Scenario.host Scenario.good_disk Scenario.stale_dir)))
  = [].
Proof.
  apply (@parsed_commit_has_no_diagnostic Mini.lib Scenario.host Scenario.good_disk
           Scenario.stale_dir _ Scenario.walk Scenario.c4
           "4444444444444444444444444444444444444444" (PyDict [("a", PyInt 2)])).
  - vm_compute. reflexivity.
  - reflexivity.
  - repeat constructor; simpl; intuition discriminate.
  - reflexivity.
  - simpl. tauto.
  - reflexivity.
  - reflexivity.
Defined.

(** When the walk succeeds and opening the output file raises, the run ends
    with that exception after the count was printed: nothing else is printed,
    no blob is read, and the files of the working directory are the ones from
    before. *)
Lemma output_open_failure_is_fatal {L : PyLib} (host : Host) (disk : Disk)
    (prior : string -> option string) (commits : list Commit) (e : pyexc) :
  history host = Ok commits ->
  open_fault disk OUTPUT_FILE = Some e ->
  run host disk prior
  = ({| stdout := [found_message (List.length commits)]; files := prior; reads := [] |},
     Err e).
Proof.
  intros Hh Ho. rewrite run_unfold, Hh. cbv zeta. now rewrite Ho.
Qed.

Lemma output_open_failure_is_fatal_witness :
  run (L := Mini.lib) Scenario.host Faults.read_only_disk Scenario.stale_dir
  = ({| stdout := [found_message 5]; files := Scenario.stale_dir; reads := [] |},
     Err (Exc OSError "[Errno 13] Permission denied: 'beer_versions.jsonl'")).
Proof.
  apply (@output_open_failure_is_fatal Mini.lib Scenario.host Faults.read_only_disk
           Scenario.stale_dir Scenario.walk
           (Exc OSError "[Errno 13] Permission denied: 'beer_versions.jsonl'")).
  - reflexivity.
  - reflexivity.
Defined.

(** X8. In a run that completes, the blobs read are, in the order of the
    walk, those of the commits whose tree has the file: a commit without the
    file costs no read, and a commit whose file does not decode or parse is
    read all the same. *)
Theorem blobs_read_are_the_files_present {L : PyLib} (host : Host) (disk : Disk)
    (prior : string -> option string) (st : State) (commits : list Commit) :
  run host disk prior = (st, Ok tt) ->
  history host = Ok commits ->
  map Ok (reads st) = map hexsha (filter has_file commits).
Proof.
  intros Hrun Hh. rewrite run_unfold, Hh in Hrun. cbv zeta in Hrun.
  destruct (open_fault disk OUTPUT_FILE); [discriminate|].
  destruct (for_each commits _ _) as [s' [[]|e]] eqn:Hloop; [|discriminate].
  apply for_each_reads_completed in Hloop. cbn [reads map app] in Hloop.
  unfold print in Hrun. inversion Hrun; subst. exact Hloop.
Qed.

Lemma blobs_read_are_the_files_present_witness :
  map Ok (reads (fst (run (L := Mini.lib) Scenario.host Scenario.good_disk Scenario.stale_dir)))
  = map hexsha (filter has_file Scenario.walk).
Proof.
  apply (@blobs_read_are_the_files_present Mini.lib Scenario.host Scenario.good_disk
           Scenario.stale_dir _ Scenario.walk).
  - vm_compute. reflexivity.
  - reflexivity.
Defined.

(** X7. The completion message is a reliable sign of success: it is among the
    printed lines exactly when the run completes.  A run that ends with an
    exception, before the loop or in it, never prints it. *)
Theorem completion_message_iff_completed {L : PyLib} (host : Host) (disk : Disk)
    (prior : string -> option string) (st : State) (out : result unit) :
  run host disk prior = (st, out) ->
  In done_message (stdout st) <-> out = Ok tt.
Proof.
  intros Hrun.
  assert (Hfound : forall n, found_message n <> done_message).
  { intros n H. unfold found_message, done_message in H. cbn [append] in H. discriminate. }
  destruct (history host) as [commits|e0] eqn:Hh.
  2:{ rewrite run_unfold, Hh in Hrun. inversion Hrun; subst. cbn [stdout].
      split; [intros [] | discriminate]. }
  destruct (open_fault disk OUTPUT_FILE) as [e0|] eqn:Ho.
  { rewrite (output_open_failure_is_fatal _ _ _ Hh Ho) in Hrun.
    inversion Hrun; subst. cbn [stdout]. split; [|discriminate].
    intros [H|[]]. now destruct (Hfound _ H). }
  destruct out as [[]|e].
  - destruct (run_completed _ _ _ Hrun Hh) as (Hout & _).
    rewrite Hout. split; [reflexivity|]. intros _.
    right. apply in_or_app. right. now left.
  - split; [|discriminate]. intros Hin. exfalso.
    rewrite run_unfold, Hh, Ho in Hrun. cbv zeta in Hrun.
    destruct (for_each commits _ _) as [s' [[]|e']] eqn:Hloop; [discriminate|].
    inversion Hrun; subst s' e'. clear Hrun.
    apply for_each_abort with (content := EmptyString) in Hloop; [|apply set_file_same].
    destruct Hloop as (pre & c & post & _ & Hout & _).
    rewrite Hout in Hin. cbn [stdout app] in Hin. destruct Hin as [H|H].
    + now destruct (Hfound _ H).
    + apply skipped_are_diagnostics in H. now rewrite is_skip_diagnostic_done in H.
Qed.

Lemma completion_message_iff_completed_witness :
  In done_message
    (stdout (fst (run (L := Mini.lib) Scenario.host (Scenario.small_disk 150) Scenario.stale_dir)))
  <-> snd (run (L := Mini.lib) Scenario.host (Scenario.small_disk 150) Scenario.stale_dir)
      = Ok tt.
Proof.
  apply (@completion_message_iff_completed Mini.lib Scenario.host (Scenario.small_disk 150)
           Scenario.stale_dir).
  vm_compute. reflexivity.
Defined.
